(** * Markdown interview-question extraction (export_interviews_to_excel.py)

    A shallow embedding of the extraction core of [InterviewExporter]:
    the section splitter, the per-block field extractor, the code-answer
    extractor and the reference resolver.  The source drives everything
    through Python's [re] module, so the file first embeds a backtracking
    matcher with Python's semantics (leftmost match, ordered alternation,
    greedy and lazy quantifiers, positive lookahead, [^] / [$] with and
    without MULTILINE) and then writes every pattern of the source as a term
    of it.  Text is modelled as ASCII strings. *)

From Stdlib Require Import List Bool Arith Lia String Ascii DecimalString.
From Stdlib Require DecimalNat DecimalFacts.
Import ListNotations.
Open Scope string_scope.
Open Scope nat_scope.

(** ** Characters *)

Definition nl_char : ascii := "010"%char.
Definition nl : string := String nl_char EmptyString.
Definition dq : string := String "034"%char EmptyString.

(** Python's [str.isspace] on ASCII (also what [\s] matches in a [str]
    pattern): 9..13, 28..31 and the space. *)
Definition is_space (c : ascii) : bool :=
  let n := nat_of_ascii c in
  ((9 <=? n) && (n <=? 13)) || ((28 <=? n) && (n <=? 32)).

Definition is_digit (c : ascii) : bool :=
  let n := nat_of_ascii c in (48 <=? n) && (n <=? 57).

(** [str.lower] on ASCII. *)
Definition lower_char (c : ascii) : ascii :=
  let n := nat_of_ascii c in
  if (65 <=? n) && (n <=? 90) then ascii_of_nat (n + 32) else c.

Fixpoint lower (s : string) : string :=
  match s with
  | EmptyString => EmptyString
  | String c s' => String (lower_char c) (lower s')
  end.

(** ** Regular expressions with Python [re] semantics *)

Inductive regex : Type :=
| Eps
| Chr (p : ascii -> bool)
  (** [Rep greedy lo hi p]: a quantifier over one character class. *)
| Rep (greedy : bool) (lo : nat) (hi : option nat) (p : ascii -> bool)
| Seq (r1 r2 : regex)
| Alt (r1 r2 : regex)
| Group (r : regex)
| Ahead (r : regex)
| BolM   (** [^] under MULTILINE *)
| Bos    (** [^] without MULTILINE *)
| EolM   (** [$] under MULTILINE *)
| Eol    (** [$] without MULTILINE: end, or before a final newline *)
| Eos.   (** [\Z] *)

Record mstate := MState { pos : nat; cap : option (nat * nat) }.

Fixpoint run_length (p : ascii -> bool) (l : list ascii) : nat :=
  match l with
  | [] => 0
  | c :: l' => if p c then S (run_length p l') else 0
  end.

Fixpoint first_some {A B : Type} (f : A -> option B) (l : list A) : option B :=
  match l with
  | [] => None
  | x :: l' => match f x with Some y => Some y | None => first_some f l' end
  end.

(** The repetition counts a quantifier tries, in the order it tries them. *)
Definition rep_counts (greedy : bool) (lo top : nat) : list nat :=
  let ns := seq lo (S top - lo) in
  if greedy then rev ns else ns.

Definition is_nl_at (t : list ascii) (i : nat) : bool :=
  match nth_error t i with
  | Some c => Ascii.eqb c nl_char
  | None => false
  end.

(** Continuation-passing backtracking matcher: [mat t r st k] matches [r]
    at [pos st] and hands each way of doing so, in priority order, to [k]. *)
Fixpoint mat (t : list ascii) (r : regex) (st : mstate)
    (k : mstate -> option mstate) : option mstate :=
  let i := pos st in
  match r with
  | Eps => k st
  | Chr p =>
      match nth_error t i with
      | Some c => if p c then k (MState (S i) (cap st)) else None
      | None => None
      end
  | Rep g lo hi p =>
      let avail := run_length p (skipn i t) in
      let top := match hi with Some h => Nat.min h avail | None => avail end in
      first_some (fun n => k (MState (i + n) (cap st))) (rep_counts g lo top)
  | Seq r1 r2 => mat t r1 st (fun st' => mat t r2 st' k)
  | Alt r1 r2 =>
      match mat t r1 st k with
      | Some m => Some m
      | None => mat t r2 st k
      end
  | Group r1 => mat t r1 st (fun st' => k (MState (pos st') (Some (i, pos st'))))
  | Ahead r1 =>
      match mat t r1 st Some with
      | Some _ => k st
      | None => None
      end
  | BolM => if (i =? 0) || is_nl_at t (pred i) then k st else None
  | Bos => if i =? 0 then k st else None
  | EolM => if (i =? List.length t) || is_nl_at t i then k st else None
  | Eol =>
      if (i =? List.length t) || ((S i =? List.length t) && is_nl_at t i)
      then k st else None
  | Eos => if i =? List.length t then k st else None
  end.

Record rmatch := RMatch { m_start : nat; m_end : nat; m_group : option (nat * nat) }.

Definition match_at (t : list ascii) (r : regex) (i : nat) : option rmatch :=
  option_map (fun st => RMatch i (pos st) (cap st)) (mat t r (MState i None) Some).

(** [re.search] from position [i]: the leftmost start that matches. *)
Fixpoint search_from (t : list ascii) (r : regex) (i fuel : nat) : option rmatch :=
  match fuel with
  | 0 => None
  | S f =>
      match match_at t r i with
      | Some m => Some m
      | None => search_from t r (S i) f
      end
  end.

Definition slice (t : list ascii) (a b : nat) : string :=
  string_of_list_ascii (firstn (b - a) (skipn a t)).

Definition group1 (t : list ascii) (m : rmatch) : string :=
  match m_group m with
  | Some (a, b) => slice t a b
  | None => EmptyString
  end.

Definition re_search (r : regex) (s : string) : option rmatch :=
  let t := list_ascii_of_string s in
  search_from t r 0 (S (List.length t)).

(** [re.match]: anchored at the start. *)
Definition re_match (r : regex) (s : string) : option rmatch :=
  match_at (list_ascii_of_string s) r 0.

(** [m.group(1)] of [re.search(r, s)], when it matches. *)
Definition search_group (r : regex) (s : string) : option string :=
  option_map (group1 (list_ascii_of_string s)) (re_search r s).

(** Where the next scan starts after a match (an empty match steps over
    one character, as [finditer] does). *)
Definition next_pos (m : rmatch) : nat :=
  if m_end m =? m_start m then S (m_end m) else m_end m.

Fixpoint findall_from (t : list ascii) (r : regex) (i fuel : nat) : list string :=
  match fuel with
  | 0 => []
  | S f =>
      if List.length t <? i then [] else
      match search_from t r i (S (List.length t - i)) with
      | None => []
      | Some m => group1 t m :: findall_from t r (next_pos m) f
      end
  end.

(** [re.findall] for a pattern with one group. *)
Definition re_findall (r : regex) (s : string) : list string :=
  let t := list_ascii_of_string s in
  findall_from t r 0 (S (S (List.length t))).

Fixpoint split_from (t : list ascii) (r : regex) (i last fuel : nat) : list string :=
  match fuel with
  | 0 => [slice t last (List.length t)]
  | S f =>
      if List.length t <? i then [slice t last (List.length t)] else
      match search_from t r i (S (List.length t - i)) with
      | None => [slice t last (List.length t)]
      | Some m =>
          slice t last (m_start m) :: group1 t m
            :: split_from t r (next_pos m) (m_end m) f
      end
  end.

(** [re.split] for a pattern with one group: pieces and groups alternate. *)
Definition re_split (r : regex) (s : string) : list string :=
  let t := list_ascii_of_string s in
  split_from t r 0 0 (S (S (List.length t))).

(** *** Building patterns *)

Definition ch (ci : bool) (c : ascii) : regex :=
  if ci then Chr (fun x => Ascii.eqb (lower_char x) (lower_char c))
  else Chr (fun x => Ascii.eqb x c).

(** A literal (what [re.escape] produces), optionally under IGNORECASE. *)
Fixpoint lit (ci : bool) (s : string) : regex :=
  match s with
  | EmptyString => Eps
  | String c EmptyString => ch ci c
  | String c s' => Seq (ch ci c) (lit ci s')
  end.

Fixpoint seqs (l : list regex) : regex :=
  match l with
  | [] => Eps
  | [r] => r
  | r :: l' => Seq r (seqs l')
  end.

Fixpoint alts (l : list regex) : regex :=
  match l with
  | [] => Eps
  | [r] => r
  | r :: l' => Alt r (alts l')
  end.

Definition any_char (c : ascii) : bool := true.
Definition not_nl (c : ascii) : bool := negb (Ascii.eqb c nl_char).
(** [.]: any character under DOTALL, any but newline otherwise. *)
Definition dot (dotall : bool) : ascii -> bool := if dotall then any_char else not_nl.

Definition star (p : ascii -> bool) := Rep true 0 None p.
Definition star_lazy (p : ascii -> bool) := Rep false 0 None p.
Definition plus (p : ascii -> bool) := Rep true 1 None p.
Definition plus_lazy (p : ascii -> bool) := Rep false 1 None p.
Definition opt (p : ascii -> bool) := Rep true 0 (Some 1) p.

(** ** String helpers mirroring Python's [str] methods *)

Fixpoint starts_with (pre s : string) : bool :=
  match pre, s with
  | EmptyString, _ => true
  | String a pre', String b s' => Ascii.eqb a b && starts_with pre' s'
  | String _ _, EmptyString => false
  end.

(** [sub in s] *)
Fixpoint is_substring (sub s : string) : bool :=
  starts_with sub s ||
  match s with
  | EmptyString => false
  | String _ s' => is_substring sub s'
  end.

Fixpoint has_char (c : ascii) (s : string) : bool :=
  match s with
  | EmptyString => false
  | String d s' => Ascii.eqb c d || has_char c s'
  end.

(** [s.split(c)] for a one-character separator. *)
Fixpoint split_char (c : ascii) (s : string) : list string :=
  match s with
  | EmptyString => [EmptyString]
  | String d s' =>
      if Ascii.eqb c d then EmptyString :: split_char c s'
      else match split_char c s' with
           | [] => [String d EmptyString]
           | w :: ws => String d w :: ws
           end
  end.

Fixpoint join (sep : string) (l : list string) : string :=
  match l with
  | [] => EmptyString
  | [x] => x
  | x :: l' => x ++ sep ++ join sep l'
  end.

Fixpoint lstrip (s : string) : string :=
  match s with
  | String c s' => if is_space c then lstrip s' else s
  | EmptyString => EmptyString
  end.

Definition rstrip (s : string) : string :=
  string_of_list_ascii (rev (list_ascii_of_string (lstrip
    (string_of_list_ascii (rev (list_ascii_of_string s)))))).

(** [str.strip()] *)
Definition strip (s : string) : string := rstrip (lstrip s).

(** [s[n:]] *)
Fixpoint drop (n : nat) (s : string) : string :=
  match n, s with
  | 0, _ => s
  | S _, EmptyString => EmptyString
  | S n', String _ s' => drop n' s'
  end.

(** [l[i]] with a default for the out-of-range case. *)
Definition nth_str (l : list string) (i : nat) : string := nth i l EmptyString.

Definition is_c (c : ascii) : ascii -> bool := fun x => Ascii.eqb x c.
Definition not_c (c : ascii) : ascii -> bool := fun x => negb (Ascii.eqb x c).

(** ** The patterns of the source *)

(** [r'^## (Part \d+.*?)$'], MULTILINE *)
Definition part_re : regex :=
  seqs [BolM; lit false "## ";
        Group (seqs [lit false "Part "; plus is_digit; star_lazy (dot false)]);
        EolM].

(** [r'^### ((?:Question|Challenge|SQL Query|Database Schema Design|Scenario).*?)$'],
    MULTILINE *)
Definition question_section_re : regex :=
  seqs [BolM; lit false "### ";
        Group (Seq (alts [lit false "Question"; lit false "Challenge";
                          lit false "SQL Query"; lit false "Database Schema Design";
                          lit false "Scenario"])
                   (star_lazy (dot false)));
        EolM].

(** [r'\*\*"(.+?)"\*\*'], DOTALL *)
Definition question_text_re : regex :=
  seqs [lit false ("**" ++ dq); Group (plus_lazy (dot true)); lit false (dq ++ "**")].

(** [(?=\*\*|---|$)] *)
Definition field_end : regex := Ahead (alts [lit false "**"; lit false "---"; Eol]).

(** [r'\*\*Expected.*?Answer.*?Points?\*\*:\s*(.+?)(?=\*\*|---|$)'], DOTALL *)
Definition expected_re1 : regex :=
  seqs [lit false "**Expected"; star_lazy (dot true); lit false "Answer";
        star_lazy (dot true); lit false "Point"; opt (is_c "s"); lit false "**:";
        star is_space; Group (plus_lazy (dot true)); field_end].

(** [r'\*\*(?:Problem Statement|Expected Solution.*?)\*\*\s*(.+?)(?=\*\*|---|$)'],
    DOTALL *)
Definition expected_re2 : regex :=
  seqs [lit false "**";
        Alt (lit false "Problem Statement")
            (Seq (lit false "Expected Solution") (star_lazy (dot true)));
        lit false "**"; star is_space; Group (plus_lazy (dot true)); field_end].

(** [r'### (?:Problem Statement|Expected Solution.*?)\s*(.+?)(?=###|---|$)'],
    DOTALL *)
Definition expected_re3 : regex :=
  seqs [lit false "### ";
        Alt (lit false "Problem Statement")
            (Seq (lit false "Expected Solution") (star_lazy (dot true)));
        star is_space; Group (plus_lazy (dot true));
        Ahead (alts [lit false "###"; lit false "---"; Eol])].

(** [r'\*\*Follow-up.*?\*\*:\s*(.+?)(?=\*\*|---|$)'], DOTALL *)
Definition followup_re : regex :=
  seqs [lit false "**Follow-up"; star_lazy (dot true); lit false "**:";
        star is_space; Group (plus_lazy (dot true)); field_end].

(** [r'\*\*Reference\*\*:\s*(.+?)(?=\*\*|---|$)'], DOTALL *)
Definition reference_re : regex :=
  seqs [lit false "**Reference**:"; star is_space; Group (plus_lazy (dot true));
        field_end].

(** [r'\((\d+.*?minutes?)\)'] *)
Definition time_re : regex :=
  seqs [lit false "(";
        Group (seqs [plus is_digit; star_lazy (dot false); lit false "minute";
                     opt (is_c "s")]);
        lit false ")"].

(** [r'\[.*?\]\(([^)]+)\)'] *)
Definition link_re : regex :=
  seqs [lit false "["; star_lazy (dot false); lit false "](";
        Group (plus (not_c ")")); lit false ")"].

(** [r'^\d+'] (used with [re.match]) *)
Definition leading_digits_re : regex := Seq Bos (plus is_digit).

(** [rf'^#+\s*{re.escape(tok)}[\.:]?\s*(.+?)$'], MULTILINE | IGNORECASE *)
Definition numbered_heading_re (tok : string) : regex :=
  seqs [BolM; plus (is_c "#"); star is_space; lit true tok;
        opt (fun c => is_c "." c || is_c ":" c); star is_space;
        Group (plus_lazy (dot false)); EolM].

(** [r'^#+\s*\d+'] (used with [re.match]) *)
Definition numbered_line_re : regex :=
  seqs [Bos; plus (is_c "#"); star is_space; plus is_digit].

(** [r'^##[^#]'] (used with [re.match]) *)
Definition level2_line_re : regex := seqs [Bos; lit false "##"; Chr (not_c "#")].

(** [r'^#+\s+'] (used with [re.match]) *)
Definition heading_line_re : regex := seqs [Bos; plus (is_c "#"); plus is_space].

(** [r'```go\s*\n(.*?)\n```'], DOTALL *)
Definition go_block_re : regex :=
  seqs [lit false "```go"; star is_space; Chr (is_c nl_char);
        Group (star_lazy (dot true)); Chr (is_c nl_char); lit false "```"].

(** [r'```\s*\n(.*?)\n```'], DOTALL *)
Definition generic_block_re : regex :=
  seqs [lit false "```"; star is_space; Chr (is_c nl_char);
        Group (star_lazy (dot true)); Chr (is_c nl_char); lit false "```"].

(** The common tail [```.*?\n(.*?)\n```] of the solution patterns, DOTALL | IGNORECASE. *)
Definition fenced_tail : regex :=
  seqs [lit true "```"; star_lazy (dot true); ch true nl_char;
        Group (star_lazy (dot true)); ch true nl_char; lit true "```"].

(** [solution_patterns], all DOTALL | IGNORECASE *)
Definition solution_patterns : list regex :=
  [ (* r'\*\*Expected.*?Answer.*?\*\*:?\s*```.*?\n(.*?)\n```' *)
    seqs [lit true "**Expected"; star_lazy (dot true); lit true "Answer";
          star_lazy (dot true); lit true "**"; opt (is_c ":"); star is_space;
          fenced_tail];
    (* r'\*\*Expected.*?Solution.*?\*\*:?\s*```.*?\n(.*?)\n```' *)
    seqs [lit true "**Expected"; star_lazy (dot true); lit true "Solution";
          star_lazy (dot true); lit true "**"; opt (is_c ":"); star is_space;
          fenced_tail];
    (* r'\*\*Solution.*?\*\*:?\s*```.*?\n(.*?)\n```' *)
    seqs [lit true "**Solution"; star_lazy (dot true); lit true "**";
          opt (is_c ":"); star is_space; fenced_tail];
    (* r'### Expected Solution Structure\s*```.*?\n(.*?)\n```' *)
    seqs [lit true "### Expected Solution Structure"; star is_space; fenced_tail] ].

(** [r'\*\*Expected.*?Code.*?Example.*?\*\*:?\s*(.+?)(?=\*\*|---|$)'],
    DOTALL | IGNORECASE *)
Definition code_example_re : regex :=
  seqs [lit true "**Expected"; star_lazy (dot true); lit true "Code";
        star_lazy (dot true); lit true "Example"; star_lazy (dot true);
        lit true "**"; opt (is_c ":"); star is_space;
        Group (plus_lazy (dot true));
        Ahead (alts [lit true "**"; lit true "---"; Eol])].

(** ** [extract_code_answer] *)

Definition coding_indicators : list string :=
  ["Challenge:"; "Coding"; "Implementation"; "Algorithm";
   "Write a"; "Implement"; "Create a Go"; "Design and implement"].

Definition go_keywords : list string :=
  ["package"; "import"; "func"; "type"; "var"; "const"; "go "; "chan"; "select"].

Definition is_coding_question (question_content : string) : bool :=
  existsb (fun indicator => is_substring (lower indicator) (lower question_content))
          coding_indicators.

(** [code_blocks] as the source accumulates it: Go-tagged blocks, then
    untagged blocks containing a Go keyword, then the solution patterns. *)
Definition collected_code_blocks (question_content : string) : list string :=
  (re_findall go_block_re question_content
   ++ filter (fun block => existsb (fun keyword => is_substring keyword block) go_keywords)
             (re_findall generic_block_re question_content)
   ++ flat_map (fun pattern => re_findall pattern question_content) solution_patterns)%list.

Fixpoint clean_blocks (code_blocks : list string) : list string :=
  match code_blocks with
  | [] => []
  | block :: rest =>
      let cleaned_block := strip block in
      if negb (String.eqb cleaned_block "") && (20 <? String.length cleaned_block)
      then cleaned_block :: clean_blocks rest
      else clean_blocks rest
  end.

Definition cleaned_code_blocks (question_content : string) : list string :=
  clean_blocks (collected_code_blocks question_content).

Definition code_sep : string := nl ++ nl ++ "--- CODE BLOCK ---" ++ nl ++ nl.

Definition extract_code_answer (question_content : string) : string :=
  if String.eqb question_content "" then "" else
  if negb (is_coding_question question_content) then "" else
  let code_blocks := collected_code_blocks question_content in
  let fallback :=
    match search_group code_example_re question_content with
    | Some g => strip g
    | None => ""
    end in
  match code_blocks with
  | [] => fallback
  | _ :: _ =>
      match clean_blocks code_blocks with
      | [] => fallback
      | cleaned_blocks => join code_sep cleaned_blocks
      end
  end.

(** ** [extract_section_by_anchor] and [create_file_summary] *)

(** The lines after the matched heading, up to the next numbered heading or
    the next [##] heading. *)
Fixpoint take_section (lines : list string) : list string :=
  match lines with
  | [] => []
  | line :: rest =>
      match re_match numbered_line_re line with
      | Some _ => []
      | None =>
          match re_match level2_line_re line with
          | Some _ => []
          | None => line :: take_section rest
          end
      end
  end.

(** [None] is Python's [None].  (The source's [try]/[except] around this
    body never fires: nothing in it raises.) *)
Definition extract_section_by_anchor (content anchor : string) : option string :=
  match re_match leading_digits_re anchor with
  | None => None
  | Some _ =>
      let tok := nth_str (split_char "-" anchor) 0 in
      match re_search (numbered_heading_re tok) content with
      | None => None
      | Some m =>
          let lines := split_char nl_char (drop (m_start m) content) in
          Some (strip (join nl (nth_str lines 0 :: take_section (tl lines))))
      end
  end.

Fixpoint find_title (lines : list string) : list string :=
  match lines with
  | [] => []
  | line :: rest => if starts_with "# " line then [line] else find_title rest
  end.

Fixpoint first_headings (heading_count : nat) (lines : list string) : list string :=
  match lines with
  | [] => []
  | line :: rest =>
      match re_match heading_line_re line with
      | Some _ =>
          if heading_count <? 5 then line :: first_headings (S heading_count) rest
          else first_headings heading_count rest
      | None => first_headings heading_count rest
      end
  end.

Definition create_file_summary (content file_path : string) : string :=
  let lines := split_char nl_char content in
  let summary_lines := (find_title (firstn 10 lines) ++ first_headings 0 lines)%list in
  match summary_lines with
  | [] => "Content available in " ++ file_path ++ " (no specific section extracted)"
  | _ :: _ => "Content from " ++ file_path ++ ":" ++ nl ++ nl ++ join nl summary_lines
  end.

(** ** [fetch_reference_content] *)

(** Results of operations that may raise; [Raise msg] carries [str(e)]. *)
Inductive outcome (A : Type) : Type :=
| Ok (a : A)
| Raise (msg : string).
Arguments Ok {A} a.
Arguments Raise {A} msg.

(** The filesystem as the resolver sees it: [Path.exists] and reading a
    file as UTF-8 text, either of which may raise. *)
Record fsys := FSys {
  fs_exists : string -> outcome bool;
  fs_read : string -> outcome string
}.

(** The link target of the first markdown link of a citation. *)
Definition link_target (reference_text : string) : option string :=
  search_group link_re reference_text.

(** [file_path] after removing one leading [../] and the [#] fragment. *)
Definition normalize_path (target : string) : string :=
  let file_path := if starts_with "../" target then drop 3 target else target in
  if has_char "#" file_path then nth_str (split_char "#" file_path) 0 else file_path.

(** The body of the [try] block. *)
Definition fetch_reference_body (fs : fsys) (reference_text : string) : outcome string :=
  match link_target reference_text with
  | None => Ok reference_text
  | Some original_ref =>
      let file_path := normalize_path original_ref in
      match fs_exists fs file_path with
      | Raise e => Raise e
      | Ok false => Ok ("Referenced file not found: " ++ file_path)
      | Ok true =>
          match fs_read fs file_path with
          | Raise e => Raise e
          | Ok content =>
              let section :=
                if has_char "#" original_ref then
                  extract_section_by_anchor content (nth_str (split_char "#" original_ref) 1)
                else None in
              match section with
              | Some section_content =>
                  if negb (String.eqb section_content "") then Ok section_content
                  else Ok (create_file_summary content file_path)
              | None => Ok (create_file_summary content file_path)
              end
          end
      end
  end.

Definition fetch_reference_content (fs : fsys) (reference_text : string) : string :=
  if String.eqb reference_text "N/A" || String.eqb reference_text "" then "N/A"
  else match fetch_reference_body fs reference_text with
       | Ok s => s
       | Raise e => "Error fetching reference: " ++ e
       end.

(** ** Section splitting and field extraction *)

Record QuestionRecord := MkQuestionRecord {
  part : string;
  question_title : string;
  question_text : string;
  expected_answer : string;
  followup : string;
  reference_link : string;
  reference_content : string;
  code_answer : string
}.

(** The [(group, following piece)] pairs that the loops
    [for i in range(1, len(parts), 2): if i + 1 < len(parts)] visit. *)
Fixpoint pairs (l : list string) : list (string * string) :=
  match l with
  | a :: b :: rest => (a, b) :: pairs rest
  | _ => []
  end.

Definition question_blocks (part_content : string) : list (string * string) :=
  pairs (tl (re_split question_section_re part_content)).

Definition expected_match (question_content : string) : option string :=
  match search_group expected_re1 question_content with
  | Some g => Some g
  | None =>
      match search_group expected_re2 question_content with
      | Some g => Some g
      | None => search_group expected_re3 question_content
      end
  end.

(** The body of the loop of [extract_questions_from_part], for one block. *)
Definition extract_question (fs : fsys) (part_title question_title question_content : string)
    : QuestionRecord :=
  let question_text :=
    match search_group question_text_re question_content with
    | Some g => g | None => "N/A" end in
  let expected_answer :=
    match expected_match question_content with
    | Some g => strip g | None => "N/A" end in
  let followup :=
    match search_group followup_re question_content with
    | Some g => strip g | None => "N/A" end in
  let reference_text :=
    match search_group reference_re question_content with
    | Some g => strip g | None => "N/A" end in
  let reference_content := fetch_reference_content fs reference_text in
  let code_answer := extract_code_answer question_content in
  let time_allocation :=
    match search_group time_re question_title with
    | Some g => g | None => "N/A" end in
  {| part := part_title;
     question_title := question_title;
     question_text := question_text;
     expected_answer := expected_answer;
     followup := followup;
     reference_link := reference_text;
     reference_content := reference_content;
     code_answer := code_answer |}.

Definition extract_questions_from_part (fs : fsys) (part_title part_content : string)
    : list QuestionRecord :=
  map (fun '(question_title, question_content) =>
         extract_question fs part_title question_title question_content)
      (question_blocks part_content).

Definition part_blocks (content : string) : list (string * string) :=
  pairs (tl (re_split part_re content)).

Definition extract_questions (fs : fsys) (content : string) : list QuestionRecord :=
  flat_map (fun '(part_title, part_content) =>
              extract_questions_from_part fs part_title part_content)
           (part_blocks content).

(** The string fields of a record, in column order. *)
Definition record_fields (r : QuestionRecord) : list string :=
  [part r; question_title r; question_text r; expected_answer r; followup r;
   reference_link r; reference_content r; code_answer r].

(** Every field but [reference_content]. *)
Definition fields_but_reference (r : QuestionRecord)
    : string * string * string * string * string * string * string :=
  (part r, question_title r, question_text r, expected_answer r, followup r,
   reference_link r, code_answer r).

(** Whether a string begins with a decimal digit. *)
Definition begins_with_digit (s : string) : bool :=
  match s with
  | String c _ => is_digit c
  | EmptyString => false
  end.

(** A filesystem with no files. *)
Definition empty_fs : fsys := FSys (fun _ => Ok false) (fun _ => Raise "No such file").

(** A filesystem holding exactly one file. *)
Definition single_file_fs (path content : string) : fsys :=
  FSys (fun p => Ok (String.eqb p path))
       (fun p => if String.eqb p path then Ok content else Raise "No such file").

(** ** [extract_alternatives] *)

(** [(?=^##|^---|\Z)], MULTILINE *)
Definition alt_section_stop : regex :=
  alts [Seq BolM (lit false "##"); Seq BolM (lit false "---"); Eos].

(** [r'### Alternative.*?Questions.*?\n(.*?)(?=^##|^---|\Z)'], MULTILINE | DOTALL *)
Definition alt_section_re : regex :=
  seqs [lit false "### Alternative"; star_lazy (dot true); lit false "Questions";
        star_lazy (dot true); Chr (is_c nl_char); Group (star_lazy (dot true));
        Ahead alt_section_stop].

(** [r'#### Alternative.*?\n(.*?)(?=####|###|^##|\Z)'], MULTILINE | DOTALL *)
Definition alt_question_re : regex :=
  seqs [lit false "#### Alternative"; star_lazy (dot true); Chr (is_c nl_char);
        Group (star_lazy (dot true));
        Ahead (alts [lit false "####"; lit false "###"; Seq BolM (lit false "##"); Eos])].

Record AlternativeRecord := MkAlternativeRecord {
  alt_question_text : string;
  alt_expected_answer : string
}.

Definition extract_alternative (alt_content : string) : AlternativeRecord :=
  let question_text :=
    match search_group question_text_re alt_content with
    | Some g => g | None => "N/A" end in
  let expected_answer :=
    match search_group expected_re1 alt_content with
    | Some g => strip g | None => "N/A" end in
  {| alt_question_text := question_text; alt_expected_answer := expected_answer |}.

Definition extract_alternatives (content : string) : list AlternativeRecord :=
  flat_map (fun section => map extract_alternative (re_findall alt_question_re section))
           (re_findall alt_section_re content).

(** ** [parse_markdown_file] *)

(** [r'^# (.+)$'], MULTILINE *)
Definition title_re : regex :=
  seqs [BolM; lit false "# "; Group (plus (dot false)); EolM].

(** [rf'\*\*{label}\*\*:\s*(.+)'] for the labels [Duration], [Format] and
    [Target Level]. *)
Definition meta_re (label : string) : regex :=
  seqs [lit false ("**" ++ label ++ "**:"); star is_space; Group (plus (dot false))].

Fixpoint rfind_from (c : ascii) (s : string) (i : nat) : option nat :=
  match s with
  | EmptyString => None
  | String d s' =>
      match rfind_from c s' (S i) with
      | Some j => Some j
      | None => if Ascii.eqb c d then Some i else None
      end
  end.

(** [PurePath.stem] of a file name: the name without its last suffix, a
    suffix being a final [.xxx] that is neither leading nor empty. *)
Definition path_stem (name : string) : string :=
  match rfind_from "." name 0 with
  | Some i => if (0 <? i) && (i <? String.length name - 1) then substring 0 i name else name
  | None => name
  end.

Record InterviewData := MkInterviewData {
  title : string;
  duration : string;
  format_info : string;
  target_level : string;
  questions : list QuestionRecord;
  alternatives : list AlternativeRecord
}.

Definition default_na (m : option string) : string :=
  match m with Some g => g | None => "N/A" end.

(** [file_name] is the final component of [file_path], whose [stem] is the
    fallback title.  Opening or reading the file may raise. *)
Definition parse_markdown_file (fs : fsys) (file_path file_name : string)
    : outcome InterviewData :=
  match fs_read fs file_path with
  | Raise e => Raise e
  | Ok content =>
      let title :=
        match search_group title_re content with
        | Some g => g | None => path_stem file_name end in
      Ok {| title := title;
            duration := default_na (search_group (meta_re "Duration") content);
            format_info := default_na (search_group (meta_re "Format") content);
            target_level := default_na (search_group (meta_re "Target Level") content);
            questions := extract_questions fs content;
            alternatives := extract_alternatives content |}
  end.

(** ** [export_to_excel] *)

(** A cell as pandas writes it: a string or a count. *)
Inductive cell := CStr (s : string) | CInt (n : nat).

Record sheet := Sheet { sheet_name : string; header : list string; rows : list (list cell) }.

Definition interview_files : list (string * string) :=
  [("Junior", "junior-go-developer.md");
   ("Intermediate", "intermediate-go-developer.md");
   ("Senior", "senior-go-developer.md")].

(** [self.interviews_dir / filename] for a directory given without a
    trailing separator. *)
Definition join_path (dir file_name : string) : string := dir ++ "/" ++ file_name.

Definition questions_header : list string :=
  ["Part"; "Question Title"; "Question Text"; "Expected Answer Points";
   "Code Answer"; "Follow-up Questions"; "Reference Link"; "Reference Content"].

Definition question_row (q : QuestionRecord) : list cell :=
  map CStr [part q; question_title q; question_text q; expected_answer q;
            code_answer q; followup q; reference_link q; reference_content q].

Definition alternatives_header : list string :=
  ["Alternative Question Text"; "Expected Answer Points"].

Definition alternative_row (a : AlternativeRecord) : list cell :=
  map CStr [alt_question_text a; alt_expected_answer a].

Definition summary_header : list string :=
  ["Level"; "Title"; "Duration"; "Format"; "Target Level";
   "Number of Questions"; "Number of Alternatives"].

Definition summary_row (level : string) (d : InterviewData) : list cell :=
  [CStr level; CStr (title d); CStr (duration d); CStr (format_info d);
   CStr (target_level d); CInt (List.length (questions d));
   CInt (List.length (alternatives d))].

(** The state the loop of [export_to_excel] carries: the sheets written so
    far, [df_summary] ([None] while it is not yet in [locals()]) and the
    printed lines. *)
Record export_state := ExportState {
  ex_sheets : list sheet;
  ex_summary : option (list (list cell));
  ex_log : list string
}.

(** One iteration of the loop. *)
Definition export_level (fs : fsys) (dir : string) (st : export_state)
    (level_file : string * string) : outcome export_state :=
  let (level, filename) := level_file in
  let file_path := join_path dir filename in
  match fs_exists fs file_path with
  | Raise e => Raise e
  | Ok false =>
      Ok {| ex_sheets := ex_sheets st; ex_summary := ex_summary st;
            ex_log := app (ex_log st) ["Warning: " ++ filename ++ " not found, skipping "
                                         ++ level ++ " level"] |}
  | Ok true =>
      match parse_markdown_file fs file_path filename with
      | Raise e => Raise e
      | Ok interview_data =>
          let questions_sheets :=
            match questions interview_data with
            | [] => []
            | qs => [Sheet (level ++ "_Questions") questions_header (map question_row qs)]
            end in
          let alternatives_sheets :=
            match alternatives interview_data with
            | [] => []
            | alts => [Sheet (level ++ "_Alternatives") alternatives_header
                             (map alternative_row alts)]
            end in
          let summary_data := [summary_row level interview_data] in
          let df_summary := if String.eqb level "Junior" then Some [] else ex_summary st in
          let df_summary :=
            match df_summary with
            | None => summary_data
            | Some rows => app rows summary_data
            end in
          Ok {| ex_sheets := app (ex_sheets st) (app questions_sheets alternatives_sheets);
                ex_summary := Some df_summary;
                ex_log := app (ex_log st) ["Processing " ++ level ++ " level: " ++ filename] |}
      end
  end.

Fixpoint export_levels (fs : fsys) (dir : string) (st : export_state)
    (files : list (string * string)) : outcome export_state :=
  match files with
  | [] => Ok st
  | level_file :: rest =>
      match export_level fs dir st level_file with
      | Raise e => Raise e
      | Ok st' => export_levels fs dir st' rest
      end
  end.

(** The sheets in the order they are written and the printed lines.
    Leaving the [with] block saves the workbook: pandas removes openpyxl's
    default sheet, and openpyxl refuses to save a workbook without a
    sheet.  Other failures of the save are not modelled. *)
Definition export_to_excel (fs : fsys) (dir output_file : string)
    : outcome (list sheet * list string) :=
  match export_levels fs dir (ExportState [] None []) interview_files with
  | Raise e => Raise e
  | Ok st =>
      let sheets :=
        match ex_summary st with
        | Some df_summary => app (ex_sheets st) [Sheet "Summary" summary_header df_summary]
        | None => ex_sheets st
        end in
      match sheets with
      | [] => Raise "At least one sheet must be visible"
      | _ :: _ =>
          Ok (sheets, app (ex_log st) ["Excel file exported successfully: " ++ output_file])
      end
  end.

(** ** [format_worksheet]: the column width *)

Definition cell_truthy (c : cell) : bool :=
  match c with
  | CStr s => negb (String.eqb s "")
  | CInt n => negb (n =? 0)
  end.

(** [len(str(cell.value))] *)
Definition cell_length (c : cell) : nat :=
  match c with
  | CStr s => String.length s
  | CInt n => String.length (NilZero.string_of_uint (Nat.to_uint n))
  end.

Definition max_cell_length (column : list cell) : nat :=
  fold_left (fun max_length c =>
               if cell_truthy c then
                 if max_length <? cell_length c then cell_length c else max_length
               else max_length) column 0.

Definition adjusted_width (max_length : nat) : nat :=
  if 300 <? max_length then 80
  else if 100 <? max_length then 60
  else Nat.min (max_length + 5) 40.

(** The width set for a column ([None]: left unset). *)
Definition column_width (column : list cell) : option nat :=
  let max_length := max_cell_length column in
  if 0 <? max_length then Some (adjusted_width max_length) else None.

(** ** [main] *)

(** [main] after parsing its arguments: the exit status, the sheets when
    the exporter runs and the printed lines.  An exception of the exporter
    propagates out of [main]. *)
Definition main (dir_exists : bool) (fs : fsys) (interviews_dir output : string)
    : outcome (nat * option (list sheet) * list string) :=
  if negb dir_exists then
    Ok (1, None, ["Error: Directory '" ++ interviews_dir ++ "' not found"])
  else
    match export_to_excel fs interviews_dir output with
    | Raise e => Raise e
    | Ok (sheets, log) => Ok (0, Some sheets, log)
    end.

(** ** What a match consumes *)

(** [sub t a b]: the characters of [t] from [a] to [b] ([t[a:b]]). *)
Definition sub (t : list ascii) (a b : nat) : list ascii := firstn (b - a) (skipn a t).

(** [steps t r st st']: [r] can match [t] from state [st] to state [st']. *)
Inductive steps (t : list ascii) : regex -> mstate -> mstate -> Prop :=
| steps_eps : forall st, steps t Eps st st
| steps_chr : forall p st c,
    nth_error t (pos st) = Some c -> p c = true ->
    steps t (Chr p) st (MState (S (pos st)) (cap st))
| steps_rep : forall g lo hi p st n,
    lo <= n -> n <= run_length p (skipn (pos st) t) ->
    match hi with Some h => n <= h | None => True end ->
    steps t (Rep g lo hi p) st (MState (pos st + n) (cap st))
| steps_seq : forall r1 r2 st st1 st2,
    steps t r1 st st1 -> steps t r2 st1 st2 -> steps t (Seq r1 r2) st st2
| steps_alt_l : forall r1 r2 st st', steps t r1 st st' -> steps t (Alt r1 r2) st st'
| steps_alt_r : forall r1 r2 st st', steps t r2 st st' -> steps t (Alt r1 r2) st st'
| steps_group : forall r st st',
    steps t r st st' -> steps t (Group r) st (MState (pos st') (Some (pos st, pos st')))
| steps_ahead : forall r st st', steps t r st st' -> steps t (Ahead r) st st
| steps_bolm : forall st, (pos st =? 0) || is_nl_at t (pred (pos st)) = true -> steps t BolM st st
| steps_bos : forall st, (pos st =? 0) = true -> steps t Bos st st
| steps_eolm : forall st,
    (pos st =? List.length t) || is_nl_at t (pos st) = true -> steps t EolM st st
| steps_eol : forall st,
    (pos st =? List.length t) || ((S (pos st) =? List.length t) && is_nl_at t (pos st)) = true ->
    steps t Eol st st
| steps_eos : forall st, (pos st =? List.length t) = true -> steps t Eos st st.

(** Every character a regex can consume satisfies [P]. *)
Fixpoint classes (P : ascii -> Prop) (r : regex) : Prop :=
  match r with
  | Chr p => forall c, p c = true -> P c
  | Rep _ _ _ p => forall c, p c = true -> P c
  | Seq r1 r2 => classes P r1 /\ classes P r2
  | Alt r1 r2 => classes P r1 /\ classes P r2
  | Group r1 => classes P r1
  | _ => True
  end.

(** The labels the question heading pattern accepts, in its order. *)
Definition question_labels : list string :=
  ["Question"; "Challenge"; "SQL Query"; "Database Schema Design"; "Scenario"].

(** A small interview document with two parts, used by the examples of the
    properties below. *)
Definition interview_doc : string :=
  "# Go Interview" ++ nl ++ "**Duration**: 60 minutes" ++ nl ++
  "**Format**: Live coding" ++ nl ++
  "## Part 1: Basics" ++ nl ++ "### Question 1 (5 minutes)" ++ nl ++
  "**" ++ dq ++ "What is a slice?" ++ dq ++ "**" ++ nl ++
  "## Part 2: Coding" ++ nl ++ "### Challenge: Reverse" ++ nl ++
  "**Problem Statement** Reverse a list.".

(** A document whose question headings sit under no [## Part] heading. *)
Definition partless_doc : string :=
  "# Go Interview" ++ nl ++ "## Warm-up" ++ nl ++ "### Question 1" ++ nl ++
  "**" ++ dq ++ "What is a goroutine?" ++ dq ++ "**".

(** A part body whose question is a bold label, not a [###] heading. *)
Definition flat_part : string :=
  nl ++ "**Question**: " ++ "**" ++ dq ++ "What is a map?" ++ dq ++ "**".

(** A filesystem on which every access raises. *)
Definition denied_fs : fsys :=
  FSys (fun _ => Raise "[Errno 13] Permission denied")
       (fun _ => Raise "[Errno 13] Permission denied").

(** A citation linking to a section of another file. *)
Definition tour_citation : string := "See [Go tour](../golang/tour.md#1-basics)".

(** An alternatives section laid out with one [####] heading per
    alternative question. *)
Definition alt_doc : string :=
  "### Alternative Questions" ++ nl ++ "#### Alternative 1: Maps" ++ nl ++
  "**" ++ dq ++ "How do maps grow?" ++ dq ++ "**" ++ nl ++
  "**Expected Answer Points**: Buckets double.".

(** The same section with its marker in the middle of a line. *)
Definition inline_alt_doc : string :=
  "### Alternative Questions" ++ nl ++ "See #### Alternative 1: Maps" ++ nl ++
  "**" ++ dq ++ "How do maps grow?" ++ dq ++ "**" ++ nl ++
  "**Expected Answer Points**: Buckets double.".

(** The levels whose file the export finds, in the loop's order. *)
Definition present_levels (fs : fsys) (dir : string) : list string :=
  map fst (filter (fun '(level, filename) =>
                     match fs_exists fs (join_path dir filename) with
                     | Ok true => true
                     | _ => false
                     end) interview_files).

(** The line the loop prints for one level. *)
Definition level_log_line (fs : fsys) (dir : string) (level_file : string * string) : string :=
  let (level, filename) := level_file in
  match fs_exists fs (join_path dir filename) with
  | Ok true => "Processing " ++ level ++ " level: " ++ filename
  | _ => "Warning: " ++ filename ++ " not found, skipping " ++ level ++ " level"
  end.

(** ** Lemmas *)

Lemma append_nonempty_l : forall a s, String a EmptyString ++ s <> "".
Proof. intros a s H. discriminate H. Qed.

Lemma create_file_summary_nonempty : forall content file_path,
  create_file_summary content file_path <> "".
Proof.
  intros content file_path. unfold create_file_summary.
  destruct (_ ++ _)%list; discriminate.
Qed.

Lemma fetch_reference_body_nonempty : forall fs reference_text s,
  reference_text <> "" -> fetch_reference_body fs reference_text = Ok s -> s <> "".
Proof.
  intros fs reference_text s Hne H. unfold fetch_reference_body in H.
  destruct (link_target reference_text) as [original_ref|].
  - destruct (fs_exists fs (normalize_path original_ref)) as [[|]|e]; try discriminate.
    + destruct (fs_read fs (normalize_path original_ref)) as [content|e]; try discriminate.
      destruct (if has_char "#" original_ref then _ else None) as [sc|].
      * destruct (String.eqb sc "") eqn:E; simpl in H; injection H as <-.
        -- apply create_file_summary_nonempty.
        -- intro Hs. subst. discriminate E.
      * injection H as <-. apply create_file_summary_nonempty.
    + injection H as <-. discriminate.
  - injection H as <-. exact Hne.
Qed.

Lemma link_target_not_na : forall reference_text target,
  link_target reference_text = Some target ->
  String.eqb reference_text "N/A" || String.eqb reference_text "" = false.
Proof.
  intros reference_text target H.
  destruct (String.eqb reference_text "N/A") eqn:E1.
  - apply String.eqb_eq in E1. subst. discriminate H.
  - destruct (String.eqb reference_text "") eqn:E2; [|reflexivity].
    apply String.eqb_eq in E2. subst. discriminate H.
Qed.

Lemma normalize_path_parent : forall rest,
  normalize_path ("../" ++ rest) =
  if has_char "#" rest then nth_str (split_char "#" rest) 0 else rest.
Proof. reflexivity. Qed.

Lemma leading_digits_needs_digit : forall anchor,
  begins_with_digit anchor = false -> re_match leading_digits_re anchor = None.
Proof.
  intros [|c s] H; [reflexivity|].
  simpl in H. unfold re_match, match_at. simpl. rewrite H. reflexivity.
Qed.

Lemma in_clean_blocks : forall code_blocks c,
  In c (clean_blocks code_blocks) <->
  exists block, In block code_blocks /\ c = strip block /\
                String.eqb c "" = false /\ 20 < String.length c.
Proof.
  induction code_blocks as [|block rest IH]; intros c; simpl.
  - split; [contradiction | intros (b & [] & _)].
  - destruct (negb (String.eqb (strip block) "") && (20 <? String.length (strip block)))
      eqn:Keep.
    + apply andb_true_iff in Keep as [K1 K2].
      apply negb_true_iff in K1. apply Nat.ltb_lt in K2.
      simpl. rewrite IH. split.
      * intros [<-|(b & Hb & Hc)]; [exists block; auto | exists b; tauto].
      * intros (b & [<-|Hb] & Hc & Hn & Hl); [left; auto | right; exists b; auto].
    + rewrite IH. split.
      * intros (b & Hb & Hc); exists b; tauto.
      * intros (b & [<-|Hb] & Hc & Hn & Hl).
        -- subst c. rewrite Hn in Keep. apply Nat.ltb_lt in Hl. rewrite Hl in Keep.
           discriminate Keep.
        -- exists b; auto.
Qed.

Lemma in_cleaned_code_blocks : forall question_content block,
  In block (collected_code_blocks question_content) ->
  (In (strip block) (cleaned_code_blocks question_content) <->
   20 < String.length (strip block)).
Proof.
  intros question_content block Hin. unfold cleaned_code_blocks.
  rewrite in_clean_blocks. split.
  - intros (b & _ & _ & _ & Hl). exact Hl.
  - intros Hl. exists block. repeat split; auto.
    destruct (strip block); [simpl in Hl; lia | reflexivity].
Qed.

Lemma extract_code_answer_joined : forall question_content,
  is_coding_question question_content = true ->
  cleaned_code_blocks question_content <> [] ->
  extract_code_answer question_content = join code_sep (cleaned_code_blocks question_content).
Proof.
  intros question_content Hc Hne. unfold extract_code_answer.
  destruct (String.eqb question_content "") eqn:E.
  - apply String.eqb_eq in E. subst. discriminate Hc.
  - rewrite Hc. simpl. unfold cleaned_code_blocks in *.
    destruct (collected_code_blocks question_content) as [|b bs]; [contradiction|].
    destruct (clean_blocks (b :: bs)); [contradiction | reflexivity].
Qed.

Lemma extract_code_answer_not_coding : forall question_content,
  is_coding_question question_content = false -> extract_code_answer question_content = "".
Proof.
  intros question_content H. unfold extract_code_answer.
  destruct (String.eqb question_content ""); [reflexivity|]. rewrite H. reflexivity.
Qed.

Lemma fields_but_reference_extract_question : forall fs1 fs2 pt qt qc,
  fields_but_reference (extract_question fs1 pt qt qc) =
  fields_but_reference (extract_question fs2 pt qt qc).
Proof. intros. reflexivity. Qed.

Lemma nth_error_extract_questions_from_part : forall fs part_title part_content n qt qc,
  nth_error (question_blocks part_content) n = Some (qt, qc) ->
  nth_error (extract_questions_from_part fs part_title part_content) n =
  Some (extract_question fs part_title qt qc).
Proof.
  intros fs part_title part_content n qt qc H. unfold extract_questions_from_part.
  rewrite nth_error_map, H. reflexivity.
Qed.

(** ** Example inputs *)

Definition slice_doc : string :=
  "## Part 1: Basics" ++ nl ++ "### Question (5 minutes)" ++ nl ++
  "**" ++ dq ++ "What is a slice?" ++ dq ++ "**" ++ nl ++
  "**Expected Answer Points**: Mentions pointer, length, capacity.".

Definition slice_record : QuestionRecord :=
  {| part := "Part 1: Basics";
     question_title := "Question (5 minutes)";
     question_text := "What is a slice?";
     expected_answer := "Mentions pointer, length, capacity.";
     followup := "N/A";
     reference_link := "N/A";
     reference_content := "N/A";
     code_answer := "" |}.

(** A block whose title carries no time annotation but whose body has
    every labelled field. *)
Definition untimed_body : string :=
  nl ++ "**" ++ dq ++ "Q?" ++ dq ++ "**" ++ nl ++
  "**Expected Answer Points**: A" ++ nl ++
  "**Follow-up**: F" ++ nl ++
  "**Reference**: See docs".

Definition untimed_part : string := nl ++ "### Question" ++ untimed_body.

(** A part of two blocks, the second of which has a follow-up and no other
    labelled field. *)
Definition two_block_part : string :=
  untimed_part ++ nl ++ "### Scenario: Outage (10 minutes)" ++ nl ++
  "**Follow-up**: Rollback?".

Definition junior_citation : string :=
  "See [golang/junior.md - Q1](../golang/junior.md#1-intro)".

Definition level3_section : string :=
  "### 1. Intro" ++ nl ++ "Body" ++ nl ++ "# Top" ++ nl ++ "After".

Definition intro_citation : string := "See [x.md](../x.md#intro)".

Definition x_md : string := "# X" ++ nl ++ "## 1. A" ++ nl ++ "text".

(** A coding block with a Go block of exactly 20 characters. *)
Definition twenty_char_block : string :=
  "Implement it" ++ nl ++ "```go" ++ nl ++ "func f() { x = 123 }" ++ nl ++ "```".

(** ** Claims *)

(** C1: reference resolution is total: for every citation (the placeholder,
    the empty string, prose without a link, a missing target, an anchor
    with no heading) [fetch_reference_content] returns a non-empty string;
    every exception of the [try] body is turned into that string, so none
    escapes (the result type is a plain [string]). *)
Theorem fetch_reference_content_total : forall fs reference_text,
  fetch_reference_content fs reference_text <> "".
Proof.
  intros fs reference_text. unfold fetch_reference_content.
  destruct (String.eqb reference_text "N/A" || String.eqb reference_text "") eqn:E.
  - discriminate.
  - apply orb_false_iff in E as [_ E].
    destruct (fetch_reference_body fs reference_text) as [s|e] eqn:B.
    + apply (fetch_reference_body_nonempty fs reference_text s); [|exact B].
      intro H. subst. discriminate E.
    + discriminate.
Qed.

(** C2 (as amended): extraction yields one record per question block, in
    order; in the record of a block, question text, expected answer,
    follow-up and reference citation each come from their own pattern
    alone and equal the placeholder "N/A" when it does not match (for the
    expected answer: when none of its three patterns match).  The time
    allocation is not a field of the record: it is parsed from the title
    and discarded, the title being kept verbatim. *)
Theorem missing_fields_are_placeholders :
  forall fs part_title part_content n qt qc,
  nth_error (question_blocks part_content) n = Some (qt, qc) ->
  List.length (extract_questions_from_part fs part_title part_content) =
    List.length (question_blocks part_content) /\
  exists r,
    nth_error (extract_questions_from_part fs part_title part_content) n = Some r /\
    part r = part_title /\ question_title r = qt /\
    question_text r =
      match search_group question_text_re qc with Some g => g | None => "N/A" end /\
    expected_answer r =
      match expected_match qc with Some g => strip g | None => "N/A" end /\
    followup r =
      match search_group followup_re qc with Some g => strip g | None => "N/A" end /\
    reference_link r =
      match search_group reference_re qc with Some g => strip g | None => "N/A" end /\
    (search_group question_text_re qc = None -> question_text r = "N/A") /\
    (expected_match qc = None -> expected_answer r = "N/A") /\
    (search_group followup_re qc = None -> followup r = "N/A") /\
    (search_group reference_re qc = None -> reference_link r = "N/A").
Proof.
  intros fs part_title part_content n qt qc H. split.
  - unfold extract_questions_from_part. apply length_map.
  - exists (extract_question fs part_title qt qc).
    split; [apply nth_error_extract_questions_from_part; exact H|].
    unfold extract_question; simpl.
    repeat split; intros E; rewrite E; reflexivity.
Qed.

Lemma missing_fields_are_placeholders_witness :
  exists qc r,
    nth_error (question_blocks two_block_part) 1 =
      Some ("Scenario: Outage (10 minutes)", qc) /\
    List.length (extract_questions_from_part empty_fs "Part 1" two_block_part) = 2 /\
    nth_error (extract_questions_from_part empty_fs "Part 1" two_block_part) 1 = Some r /\
    question_title r = "Scenario: Outage (10 minutes)" /\
    search_group question_text_re qc = None /\ question_text r = "N/A" /\
    expected_match qc = None /\ expected_answer r = "N/A" /\
    search_group reference_re qc = None /\ reference_link r = "N/A" /\
    followup r = "Rollback?".
Proof.
  destruct (nth_error (question_blocks two_block_part) 1) as [[qt qc]|] eqn:H;
    [|vm_compute in H; discriminate H].
  assert (Hqt : qt = "Scenario: Outage (10 minutes)")
    by (vm_compute in H; injection H as -> _; reflexivity).
  subst qt.
  destruct (missing_fields_are_placeholders empty_fs "Part 1" two_block_part 1 _ _ H)
    as [Hlen (r & Hr & _ & Ht & _ & _ & Hf & _ & Pq & Pe & _ & Pr)].
  assert (Hq : search_group question_text_re qc = None)
    by (vm_compute in H; injection H as <-; vm_compute; reflexivity).
  assert (He : expected_match qc = None)
    by (vm_compute in H; injection H as <-; vm_compute; reflexivity).
  assert (Hrf : search_group reference_re qc = None)
    by (vm_compute in H; injection H as <-; vm_compute; reflexivity).
  exists qc, r. split; [reflexivity|]. split.
  { rewrite Hlen. vm_compute. reflexivity. }
  split; [exact Hr|]. split; [exact Ht|].
  split; [exact Hq|]. split; [exact (Pq Hq)|].
  split; [exact He|]. split; [exact (Pe He)|].
  split; [exact Hrf|]. split; [exact (Pr Hrf)|].
  rewrite Hf. vm_compute in H. injection H as <-. vm_compute. reflexivity.
Defined.

(** C2 counterexample: for a block whose title has no time annotation, the
    time-allocation pattern does not match, yet no field of the resulting
    record holds the placeholder "N/A": the record has no time-allocation
    field. *)
Lemma untimed_block_has_no_placeholder_field :
  search_group time_re "Question" = None /\
  List.length (extract_questions_from_part empty_fs "Part 1" untimed_part) = 1 /\
  existsb (fun r => existsb (String.eqb "N/A") (record_fields r))
          (extract_questions_from_part empty_fs "Part 1" untimed_part) = false.
Proof. vm_compute. repeat split. Qed.

(** C3: a block containing none of the coding trigger phrases (compared as
    lower-cased substrings) gets the empty code answer, not "N/A". *)
Theorem code_answer_empty_without_trigger : forall question_content,
  (forall indicator, In indicator coding_indicators ->
     is_substring (lower indicator) (lower question_content) = false) ->
  extract_code_answer question_content = "" /\
  extract_code_answer question_content <> "N/A".
Proof.
  intros question_content H.
  assert (Hc : is_coding_question question_content = false).
  { unfold is_coding_question.
    destruct (existsb _ coding_indicators) eqn:E; [|reflexivity].
    apply existsb_exists in E as (x & Hx & Hs). rewrite (H x Hx) in Hs.
    discriminate Hs. }
  rewrite (extract_code_answer_not_coding _ Hc). split; [reflexivity | discriminate].
Qed.

Lemma code_answer_empty_without_trigger_witness :
  extract_code_answer "Explain slices" = "" /\ extract_code_answer "Explain slices" <> "N/A".
Proof.
  apply code_answer_empty_without_trigger.
  intros indicator Hin.
  repeat (destruct Hin as [<-|Hin]; [vm_compute; reflexivity|]). destruct Hin.
Defined.

(** C4 (code bug): the span captured for anchor [1-intro] from a section
    headed [### 1. Intro] does not stop at the level-1 heading [# Top]: the
    stop test is the fixed pattern [^##[^#]], so only level-2 headings end a
    span, whatever the level of the matched heading.  The source's comment
    says "until next heading of same or higher level". *)
Theorem section_by_anchor_runs_past_higher_heading :
  extract_section_by_anchor level3_section "1-intro" = Some level3_section /\
  is_substring "# Top" level3_section = true.
Proof. vm_compute. split; reflexivity. Qed.

(** C5 counterexample: the one record extracted from the example document
    has no field holding the time allocation "5 minutes". *)
Lemma slice_doc_record_has_no_time_field :
  existsb (fun r => existsb (String.eqb "5 minutes") (record_fields r))
          (extract_questions empty_fs slice_doc) = false.
Proof. vm_compute. reflexivity. Qed.

(** C5 (as amended): the example document yields exactly one record, with
    part "Part 1: Basics", title "Question (5 minutes)" kept verbatim,
    question text "What is a slice?", expected answer "Mentions pointer,
    length, capacity.", follow-up, reference link and reference content
    "N/A" and code answer ""; the time allocation "5 minutes" is parsed
    from the title but is not a field of the record. *)
Theorem slice_doc_extraction : forall fs,
  extract_questions fs slice_doc = [slice_record] /\
  search_group time_re (question_title slice_record) = Some "5 minutes".
Proof. intros fs. vm_compute. split; reflexivity. Qed.

(** C6: when the link target of a citation starts with [../], that one
    prefix is removed and the [#] fragment dropped before the existence
    check; a missing file gives the not-found message naming that path. *)
Theorem fetch_reference_not_found_names_path : forall fs reference_text rest,
  link_target reference_text = Some ("../" ++ rest) ->
  let file_path :=
    if has_char "#" rest then nth_str (split_char "#" rest) 0 else rest in
  fs_exists fs file_path = Ok false ->
  fetch_reference_content fs reference_text = "Referenced file not found: " ++ file_path.
Proof.
  intros fs reference_text rest Hl file_path He.
  unfold fetch_reference_content. rewrite (link_target_not_na _ _ Hl).
  unfold fetch_reference_body. rewrite Hl, normalize_path_parent.
  fold file_path. rewrite He. reflexivity.
Qed.

Lemma fetch_reference_not_found_names_path_witness :
  link_target junior_citation = Some ("../" ++ "golang/junior.md#1-intro") /\
  fs_exists empty_fs "golang/junior.md" = Ok false /\
  fetch_reference_content empty_fs junior_citation =
    "Referenced file not found: golang/junior.md".
Proof.
  assert (Hl : link_target junior_citation = Some ("../" ++ "golang/junior.md#1-intro"))
    by (vm_compute; reflexivity).
  split; [exact Hl|]. split; [reflexivity|].
  exact (fetch_reference_not_found_names_path empty_fs junior_citation
           "golang/junior.md#1-intro" Hl eq_refl).
Defined.

(** C7: anchor extraction runs only for anchors beginning with a digit;
    for an anchor that does not, or whose leading token matches no heading
    of the (existing, readable) target file, it yields nothing and
    resolution returns the file summary. *)
Theorem anchor_without_section_falls_back_to_summary :
  forall fs reference_text target content anchor,
  link_target reference_text = Some target ->
  fs_exists fs (normalize_path target) = Ok true ->
  fs_read fs (normalize_path target) = Ok content ->
  has_char "#" target = true ->
  anchor = nth_str (split_char "#" target) 1 ->
  (begins_with_digit anchor = false \/
   re_search (numbered_heading_re (nth_str (split_char "-" anchor) 0)) content = None) ->
  extract_section_by_anchor content anchor = None /\
  fetch_reference_content fs reference_text =
    create_file_summary content (normalize_path target).
Proof.
  intros fs reference_text target content anchor Hl He Hr Hh Ha Hno.
  assert (Hs : extract_section_by_anchor content anchor = None).
  { unfold extract_section_by_anchor.
    destruct Hno as [Hd|Hn].
    - rewrite (leading_digits_needs_digit _ Hd). reflexivity.
    - destruct (re_match leading_digits_re anchor); [|reflexivity].
      rewrite Hn. reflexivity. }
  split; [exact Hs|].
  unfold fetch_reference_content. rewrite (link_target_not_na _ _ Hl).
  unfold fetch_reference_body. rewrite Hl, He, Hr, Hh, <- Ha, Hs. reflexivity.
Qed.

Lemma anchor_without_section_falls_back_to_summary_witness :
  link_target intro_citation = Some "../x.md#intro" /\
  extract_section_by_anchor x_md "intro" = None /\
  fetch_reference_content (single_file_fs "x.md" x_md) intro_citation =
    create_file_summary x_md "x.md".
Proof.
  assert (Hl : link_target intro_citation = Some "../x.md#intro")
    by (vm_compute; reflexivity).
  split; [exact Hl|].
  exact (anchor_without_section_falls_back_to_summary (single_file_fs "x.md" x_md)
           intro_citation "../x.md#intro" x_md "intro" Hl eq_refl eq_refl eq_refl
           eq_refl (or_introl eq_refl)).
Defined.

(** C8: a collected snippet (Go-tagged block, keyword-matched untagged
    block or solution block) whose trimmed form is shorter than 20
    characters is not among the blocks joined into the code answer; when
    the block is a coding question and some blocks survive, the code answer
    is exactly their join. *)
Theorem short_snippet_excluded : forall question_content block,
  In block (collected_code_blocks question_content) ->
  String.length (strip block) < 20 ->
  ~ In (strip block) (cleaned_code_blocks question_content) /\
  (is_coding_question question_content = true ->
   cleaned_code_blocks question_content <> [] ->
   extract_code_answer question_content =
     join code_sep (cleaned_code_blocks question_content)).
Proof.
  intros question_content block Hin Hlt. split.
  - rewrite (in_cleaned_code_blocks _ _ Hin). lia.
  - apply extract_code_answer_joined.
Qed.

Definition short_block : string :=
  "Implement it" ++ nl ++ "```go" ++ nl ++ "x := 1" ++ nl ++ "```".

Lemma short_snippet_excluded_witness :
  In "x := 1" (collected_code_blocks short_block) /\
  String.length (strip "x := 1") < 20 /\
  ~ In (strip "x := 1") (cleaned_code_blocks short_block).
Proof.
  assert (Hin : In "x := 1" (collected_code_blocks short_block))
    by (vm_compute; left; reflexivity).
  assert (Hl : String.length (strip "x := 1") < 20) by (vm_compute; lia).
  split; [exact Hin|]. split; [exact Hl|].
  exact (proj1 (short_snippet_excluded short_block "x := 1" Hin Hl)).
Defined.

(** C9: every field of every record except [reference_content] depends on
    the document text only: two filesystems give the same values. *)
Theorem fields_independent_of_filesystem : forall fs1 fs2 content,
  map fields_but_reference (extract_questions fs1 content) =
  map fields_but_reference (extract_questions fs2 content).
Proof.
  intros fs1 fs2 content. unfold extract_questions.
  induction (part_blocks content) as [|[part_title part_content] rest IH]; [reflexivity|].
  simpl. rewrite !map_app, IH. f_equal.
  unfold extract_questions_from_part. rewrite !map_map.
  apply map_ext. intros [qt qc]. apply fields_but_reference_extract_question.
Qed.

(** C10: a collected snippet is kept exactly when its trimmed length is
    strictly greater than 20, so one of exactly 20 characters is dropped. *)
Theorem snippet_kept_iff_longer_than_20 : forall question_content block,
  In block (collected_code_blocks question_content) ->
  (In (strip block) (cleaned_code_blocks question_content) <->
   20 < String.length (strip block)) /\
  (String.length (strip block) = 20 ->
   ~ In (strip block) (cleaned_code_blocks question_content)).
Proof.
  intros question_content block Hin. split.
  - apply in_cleaned_code_blocks. exact Hin.
  - intros H20. rewrite (in_cleaned_code_blocks _ _ Hin). lia.
Qed.

Lemma snippet_kept_iff_longer_than_20_witness :
  In "func f() { x = 123 }" (collected_code_blocks twenty_char_block) /\
  String.length (strip "func f() { x = 123 }") = 20 /\
  ~ In (strip "func f() { x = 123 }") (cleaned_code_blocks twenty_char_block) /\
  extract_code_answer twenty_char_block = "".
Proof.
  assert (Hin : In "func f() { x = 123 }" (collected_code_blocks twenty_char_block))
    by (vm_compute; left; reflexivity).
  assert (H20 : String.length (strip "func f() { x = 123 }") = 20)
    by (vm_compute; reflexivity).
  split; [exact Hin|]. split; [exact H20|]. split.
  - exact (proj2 (snippet_kept_iff_longer_than_20 twenty_char_block _ Hin) H20).
  - vm_compute. reflexivity.
Defined.

(** * Further properties of the exporter *)

(** ** Soundness of the matcher *)

Lemma first_some_in : forall {A B : Type} (f : A -> option B) l y,
  first_some f l = Some y -> exists x, In x l /\ f x = Some y.
Proof.
  intros A B f l y. induction l as [|x l IH]; simpl; [discriminate|].
  destruct (f x) eqn:E.
  - intros H. injection H as <-. exists x. auto.
  - intros H. destruct (IH H) as (x' & Hin & Hf). exists x'. auto.
Qed.

Lemma in_rep_counts : forall g lo top n,
  In n (rep_counts g lo top) -> lo <= n /\ n <= top.
Proof.
  intros g lo top n H. unfold rep_counts in H.
  assert (Hs : In n (seq lo (S top - lo))) by (destruct g; [apply in_rev in H|]; exact H).
  apply in_seq in Hs. lia.
Qed.

Lemma mat_sound : forall t r st k x,
  mat t r st k = Some x -> exists st', steps t r st st' /\ k st' = Some x.
Proof.
  intros t r. induction r; intros st k x H; simpl in H.
  - exists st. split; [constructor | exact H].
  - destruct (nth_error t (pos st)) as [c|] eqn:E; [|discriminate].
    destruct (p c) eqn:Ep; [|discriminate].
    eexists. split; [eapply steps_chr; eauto | exact H].
  - apply first_some_in in H as (n & Hin & Hk).
    apply in_rep_counts in Hin as [Hlo Htop].
    eexists. split; [|exact Hk]. apply steps_rep; [exact Hlo| |].
    + destruct hi; [apply Nat.min_glb_r in Htop|]; exact Htop.
    + destruct hi; [apply Nat.min_glb_l in Htop; exact Htop | exact I].
  - apply IHr1 in H as (st1 & H1 & H2). apply IHr2 in H2 as (st2 & H2 & Hk).
    exists st2. split; [econstructor; eauto | exact Hk].
  - destruct (mat t r1 st k) eqn:E.
    + injection H as <-. apply IHr1 in E as (st' & Hs & Hk).
      exists st'. split; [apply steps_alt_l; exact Hs | exact Hk].
    + apply IHr2 in H as (st' & Hs & Hk).
      exists st'. split; [apply steps_alt_r; exact Hs | exact Hk].
  - apply IHr in H as (st' & Hs & Hk).
    eexists. split; [apply steps_group; exact Hs | exact Hk].
  - destruct (mat t r st Some) eqn:E; [|discriminate].
    apply IHr in E as (st' & Hs & _).
    exists st. split; [eapply steps_ahead; exact Hs | exact H].
  - destruct (_ || _) eqn:E; [|discriminate]. exists st. split; [constructor; exact E | exact H].
  - destruct (pos st =? 0) eqn:E; [|discriminate]. exists st. split; [constructor; exact E | exact H].
  - destruct (_ || _) eqn:E; [|discriminate]. exists st. split; [constructor; exact E | exact H].
  - destruct (_ || _) eqn:E; [|discriminate]. exists st. split; [constructor; exact E | exact H].
  - destruct (pos st =? List.length t) eqn:E; [|discriminate].
    exists st. split; [constructor; exact E | exact H].
Qed.

Lemma match_at_steps : forall t r j m,
  match_at t r j = Some m ->
  m_start m = j /\ steps t r (MState j None) (MState (m_end m) (m_group m)).
Proof.
  intros t r j m H. unfold match_at in H.
  destruct (mat t r (MState j None) Some) as [st|] eqn:E; [|discriminate].
  injection H as <-. apply mat_sound in E as (st' & Hs & Hk). injection Hk as ->.
  simpl. destruct st. split; [reflexivity | exact Hs].
Qed.

Lemma search_from_sound : forall t r fuel i m,
  search_from t r i fuel = Some m -> exists j, i <= j /\ match_at t r j = Some m.
Proof.
  intros t r fuel. induction fuel as [|fuel IH]; intros i m H; simpl in H; [discriminate|].
  destruct (match_at t r i) eqn:E.
  - injection H as <-. exists i. auto.
  - apply IH in H as (j & Hj & Hm). exists j. split; [lia | exact Hm].
Qed.

Lemma split_from_nonempty : forall t r fuel i last, split_from t r i last fuel <> [].
Proof.
  intros t r [|fuel] i last Hnil; cbn [split_from] in Hnil; [discriminate Hnil|].
  destruct (List.length t <? i); [discriminate Hnil|].
  destruct (search_from _ _ _ _); discriminate Hnil.
Qed.

(** Every group that [re.split] returns is the group of some match. *)
Lemma split_pairs_sound : forall t r fuel i last g piece,
  In (g, piece) (pairs (tl (split_from t r i last fuel))) ->
  exists j m, match_at t r j = Some m /\ g = group1 t m.
Proof.
  intros t r fuel. induction fuel as [|fuel IH]; intros i last g piece H;
    cbn [split_from] in H; [destruct H|].
  destruct (List.length t <? i); [destruct H|].
  destruct (search_from t r i (S (List.length t - i))) as [m|] eqn:E; [|destruct H].
  pose proof (split_from_nonempty t r fuel (next_pos m) (m_end m)) as Hne.
  destruct (split_from t r (next_pos m) (m_end m) fuel) as [|q rest] eqn:Es;
    [exfalso; exact (Hne eq_refl)|].
  cbn [tl pairs] in H. destruct H as [H|H].
  - injection H as <- _. apply search_from_sound in E as (j & _ & Hm).
    exists j, m. auto.
  - apply (IH (next_pos m) (m_end m) g piece). rewrite Es. exact H.
Qed.

Lemma findall_sound : forall t r fuel i g,
  In g (findall_from t r i fuel) -> exists j m, match_at t r j = Some m /\ g = group1 t m.
Proof.
  intros t r fuel. induction fuel as [|fuel IH]; intros i g H;
    cbn [findall_from] in H; [destruct H|].
  destruct (List.length t <? i); [destruct H|].
  destruct (search_from t r i (S (List.length t - i))) as [m|] eqn:E; [|destruct H].
  destruct H as [<-|H].
  - apply search_from_sound in E as (j & _ & Hm). exists j, m. auto.
  - exact (IH _ _ H).
Qed.

(** ** What matches consume *)

Lemma skipn_nth : forall (t : list ascii) i c,
  nth_error t i = Some c -> skipn i t = c :: skipn (S i) t.
Proof.
  induction t as [|d t IH]; intros [|i] c H; simpl in *; try discriminate.
  - injection H as ->. reflexivity.
  - apply IH. exact H.
Qed.

Lemma firstn_add : forall (l : list ascii) n1 n2,
  firstn (n1 + n2) l = (firstn n1 l ++ firstn n2 (skipn n1 l))%list.
Proof.
  induction l as [|c l IH]; intros [|n1] n2; simpl; try reflexivity.
  - destruct n2; reflexivity.
  - f_equal. apply IH.
Qed.

Lemma sub_split : forall t a m b,
  a <= m -> m <= b -> sub t a b = (sub t a m ++ sub t m b)%list.
Proof.
  intros t a m b H1 H2. unfold sub.
  replace (b - a) with ((m - a) + (b - m)) by lia.
  rewrite firstn_add, skipn_skipn. replace (m - a + a) with m by lia. reflexivity.
Qed.

Lemma sub_empty : forall t a, sub t a a = [].
Proof. intros t a. unfold sub. rewrite Nat.sub_diag. reflexivity. Qed.

Lemma steps_pos_le : forall t r st st', steps t r st st' -> pos st <= pos st'.
Proof. intros t r st st' H. induction H; simpl; lia. Qed.

Lemma forall_firstn_run : forall p (l : list ascii) n,
  n <= run_length p l -> Forall (fun c => p c = true) (firstn n l).
Proof.
  intros p l. induction l as [|c l IH]; intros [|n] H; simpl in *;
    [constructor | constructor | constructor |].
  destruct (p c) eqn:E; [|lia].
  constructor; [exact E | apply IH; lia].
Qed.

Lemma steps_classes : forall (P : ascii -> Prop) t r st st',
  classes P r -> steps t r st st' -> Forall P (sub t (pos st) (pos st')).
Proof.
  intros P t r st st' Hc H. induction H; simpl in *.
  - rewrite sub_empty. constructor.
  - unfold sub. rewrite Nat.sub_succ_l, Nat.sub_diag by lia.
    rewrite (skipn_nth _ _ _ H). simpl. constructor; [apply Hc; exact H0 | constructor].
  - unfold sub. replace (pos st + n - pos st) with n by lia.
    eapply Forall_impl; [|apply forall_firstn_run; exact H0]. intros c Hp. apply Hc. exact Hp.
  - destruct Hc as [Hc1 Hc2].
    rewrite (sub_split t (pos st) (pos st1) (pos st2)) by (eapply steps_pos_le; eauto).
    apply Forall_app. auto.
  - apply IHsteps. exact (proj1 Hc).
  - apply IHsteps. exact (proj2 Hc).
  - apply IHsteps. exact Hc.
  - rewrite sub_empty. constructor.
  - rewrite sub_empty. constructor.
  - rewrite sub_empty. constructor.
  - rewrite sub_empty. constructor.
  - rewrite sub_empty. constructor.
  - rewrite sub_empty. constructor.
Qed.

Lemma steps_lit : forall t s st st',
  steps t (lit false s) st st' ->
  pos st' = pos st + String.length s /\ sub t (pos st) (pos st') = list_ascii_of_string s.
Proof.
  intros t s. induction s as [|c s IH]; intros st st' H.
  - simpl in H. inversion H; subst. simpl. rewrite sub_empty. split; [lia | reflexivity].
  - assert (Hc : forall st1 st2, steps t (ch false c) st1 st2 ->
              pos st2 = S (pos st1) /\ sub t (pos st1) (pos st2) = [c]).
    { intros st1 st2 Hs. unfold ch in Hs.
      inversion Hs as [| p0 st0 c0 Hnth Hp | | | | | | | | | | |]; subst. simpl.
      apply Ascii.eqb_eq in Hp. subst c0. split; [reflexivity|].
      rename Hnth into H3.
      unfold sub. rewrite Nat.sub_succ_l, Nat.sub_diag by lia.
      rewrite (skipn_nth _ _ _ H3). reflexivity. }
    destruct s as [|d s'].
    + simpl in H. apply Hc in H as [H1 H2]. simpl. split; [lia | exact H2].
    + change (lit false (String c (String d s'))) with
        (Seq (ch false c) (lit false (String d s'))) in H.
      inversion H as [| | | r1 r2 st0 st1 st2 Hs1 Hs2 | | | | | | | | |]; subst.
      apply Hc in Hs1 as [H3a H3b]. apply IH in Hs2 as [H5a H5b].
      split; [simpl in *; lia|].
      rewrite (sub_split t (pos st) (pos st1) (pos st')) by lia.
      rewrite H3b, H5b. reflexivity.
Qed.

Lemma starts_with_firstn : forall (l : list ascii) n,
  starts_with (string_of_list_ascii (firstn n l)) (string_of_list_ascii l) = true.
Proof.
  induction l as [|c l IH]; intros [|n]; simpl; try reflexivity.
  rewrite Ascii.eqb_refl. apply IH.
Qed.

Lemma is_substring_skipn : forall u (l : list ascii) a,
  is_substring u (string_of_list_ascii (skipn a l)) = true ->
  is_substring u (string_of_list_ascii l) = true.
Proof.
  intros u l. induction l as [|c l IH]; intros a H.
  - destruct a; exact H.
  - destruct a as [|a]; [exact H|]. simpl in H.
    simpl. rewrite (IH a H). apply orb_true_r.
Qed.

(** What [sub] returns is always a substring of the text. *)
Lemma sub_is_substring : forall t a b,
  is_substring (string_of_list_ascii (sub t a b)) (string_of_list_ascii t) = true.
Proof.
  intros t a b. unfold sub. apply (is_substring_skipn _ _ a).
  destruct (skipn a t) as [|c l] eqn:E.
  - destruct (b - a); reflexivity.
  - change (is_substring (string_of_list_ascii (firstn (b - a) (c :: l)))
                         (string_of_list_ascii (c :: l)) = true).
    destruct (string_of_list_ascii (c :: l)) eqn:Es.
    + simpl in Es. discriminate Es.
    + simpl. rewrite <- Es, starts_with_firstn. reflexivity.
Qed.

Lemma starts_with_app : forall s l,
  starts_with s (string_of_list_ascii (list_ascii_of_string s ++ l)%list) = true.
Proof.
  induction s as [|c s IH]; intros l; simpl; [reflexivity|].
  rewrite Ascii.eqb_refl. apply IH.
Qed.

Lemma has_char_forall : forall d l,
  Forall (fun c => c <> d) l -> has_char d (string_of_list_ascii l) = false.
Proof.
  intros d l H. induction H as [|c l Hc H IH]; simpl; [reflexivity|].
  rewrite IH, orb_false_r. apply Ascii.eqb_neq. intro E. apply Hc. symmetry. exact E.
Qed.

Lemma string_of_list_ascii_of_string : forall s,
  string_of_list_ascii (list_ascii_of_string s) = s.
Proof. induction s as [|c s IH]; simpl; [reflexivity | rewrite IH; reflexivity]. Qed.

Lemma steps_seq_inv : forall t r1 r2 st st',
  steps t (Seq r1 r2) st st' -> exists st1, steps t r1 st st1 /\ steps t r2 st1 st'.
Proof. intros t r1 r2 st st' H. inversion H; subst. eauto. Qed.

Lemma steps_alt_inv : forall t r1 r2 st st',
  steps t (Alt r1 r2) st st' -> steps t r1 st st' \/ steps t r2 st st'.
Proof. intros t r1 r2 st st' H. inversion H; subst; auto. Qed.

Lemma steps_group_inv : forall t r st st',
  steps t (Group r) st st' ->
  exists s, steps t r st s /\ st' = MState (pos s) (Some (pos st, pos s)).
Proof. intros t r st st' H. inversion H; subst. eauto. Qed.

Lemma steps_bolm_inv : forall t st st', steps t BolM st st' ->
  st' = st /\ (pos st =? 0) || is_nl_at t (pred (pos st)) = true.
Proof. intros t st st' H. inversion H; subst. auto. Qed.

Lemma steps_eolm_inv : forall t st st', steps t EolM st st' -> st' = st.
Proof. intros t st st' H. inversion H; subst. reflexivity. Qed.

Lemma steps_chr_inv : forall t p st st', steps t (Chr p) st st' ->
  exists c, nth_error t (pos st) = Some c /\ p c = true /\
            st' = MState (S (pos st)) (cap st).
Proof. intros t p st st' H. inversion H; subst. eauto. Qed.

(** A match that starts with a literal consumes that literal first. *)
Lemma steps_seq_lit : forall t s r st st',
  steps t (Seq (lit false s) r) st st' ->
  sub t (pos st) (pos st') = (list_ascii_of_string s ++ sub t (pos st + String.length s) (pos st'))%list.
Proof.
  intros t s r st st' H. apply steps_seq_inv in H as (st1 & H1 & H2).
  apply steps_lit in H1 as [Hp Hs]. apply steps_pos_le in H2.
  rewrite (sub_split t (pos st) (pos st1) (pos st')) by lia.
  rewrite Hs, Hp. reflexivity.
Qed.

Ltac no_newline_classes :=
  cbn; repeat split; intros c Hc E; subst c; vm_compute in Hc; discriminate Hc.

(** What a match of [part_re] at [j] captures. *)
Lemma part_re_match : forall t j st,
  steps t part_re (MState j None) st ->
  exists a b, cap st = Some (a, b) /\
    sub t j (a + 5) = list_ascii_of_string "## Part " /\
    starts_with "Part " (string_of_list_ascii (sub t a b)) = true /\
    has_char nl_char (string_of_list_ascii (sub t a b)) = false.
Proof.
  intros t j st H. unfold part_re in H. cbn [seqs] in H.
  apply steps_seq_inv in H as (s1 & H1 & H).
  apply steps_bolm_inv in H1 as [-> _].
  apply steps_seq_inv in H as (s2 & H2 & H).
  apply steps_lit in H2 as [Hp2 Hs2]. simpl in Hp2.
  apply steps_seq_inv in H as (s3 & H3 & H4).
  apply steps_eolm_inv in H4 as ->.
  apply steps_group_inv in H3 as (s & Hin & ->).
  exists (pos s2), (pos s). split; [reflexivity|].
  assert (Hpre := steps_seq_lit _ _ _ _ _ Hin). simpl String.length in Hpre.
  split; [|split].
  - apply steps_seq_inv in Hin as (s4 & H4 & _). apply steps_lit in H4 as [Hp4 Hs4].
    simpl in Hp4, Hs2. rewrite <- Hp4.
    rewrite (sub_split t j (pos s2) (pos s4)) by lia. rewrite Hs2, Hs4. reflexivity.
  - rewrite Hpre. apply starts_with_app.
  - apply has_char_forall.
    apply (steps_classes (fun c => c <> nl_char)) in Hin; [exact Hin|].
    no_newline_classes.
Qed.

(** What a match of [question_section_re] at [j] captures. *)
Lemma question_section_re_match : forall t j st,
  steps t question_section_re (MState j None) st ->
  exists a b, cap st = Some (a, b) /\
    sub t j a = list_ascii_of_string "### " /\
    existsb (fun label => starts_with label (string_of_list_ascii (sub t a b)))
            question_labels = true /\
    has_char nl_char (string_of_list_ascii (sub t a b)) = false.
Proof.
  intros t j st H. unfold question_section_re in H. cbn [seqs] in H.
  apply steps_seq_inv in H as (s1 & H1 & H).
  apply steps_bolm_inv in H1 as [-> _].
  apply steps_seq_inv in H as (s2 & H2 & H).
  apply steps_lit in H2 as [Hp2 Hs2].
  apply steps_seq_inv in H as (s3 & H3 & H4).
  apply steps_eolm_inv in H4 as ->.
  apply steps_group_inv in H3 as (s & Hin & ->).
  exists (pos s2), (pos s). split; [reflexivity|]. split; [exact Hs2|]. split.
  - apply steps_seq_inv in Hin as (s4 & Halt & Hrest).
    assert (Hlab : forall label, steps t (lit false label) s2 s4 ->
              starts_with label (string_of_list_ascii (sub t (pos s2) (pos s))) = true).
    { intros label Hl.
      assert (Hseq : steps t (Seq (lit false label) (star_lazy (dot false))) s2 s)
        by (econstructor; eauto).
      rewrite (steps_seq_lit _ _ _ _ _ Hseq). apply starts_with_app. }
    apply existsb_exists. cbn [alts] in Halt.
    repeat (apply steps_alt_inv in Halt as [Halt|Halt];
            [apply Hlab in Halt; eexists; split; [|exact Halt]; simpl; tauto|]).
    apply Hlab in Halt. eexists; split; [|exact Halt]. simpl. tauto.
  - apply has_char_forall.
    apply (steps_classes (fun c => c <> nl_char)) in Hin; [exact Hin|].
    no_newline_classes.
Qed.

Lemma in_extract_questions : forall fs content r,
  In r (extract_questions fs content) ->
  exists pt pc qt qc,
    In (pt, pc) (part_blocks content) /\ In (qt, qc) (question_blocks pc) /\
    r = extract_question fs pt qt qc.
Proof.
  intros fs content r H. unfold extract_questions in H.
  apply in_flat_map in H as ([pt pc] & Hp & H).
  unfold extract_questions_from_part in H. apply in_map_iff in H as ([qt qc] & Hr & Hq).
  exists pt, pc, qt, qc. auto.
Qed.

Lemma part_blocks_sound : forall content pt pc,
  In (pt, pc) (part_blocks content) ->
  exists j m, match_at (list_ascii_of_string content) part_re j = Some m /\
              pt = group1 (list_ascii_of_string content) m.
Proof. intros content pt pc H. exact (split_pairs_sound _ _ _ _ _ _ _ H). Qed.

Lemma question_blocks_sound : forall pc qt qc,
  In (qt, qc) (question_blocks pc) ->
  exists j m, match_at (list_ascii_of_string pc) question_section_re j = Some m /\
              qt = group1 (list_ascii_of_string pc) m.
Proof. intros pc qt qc H. exact (split_pairs_sound _ _ _ _ _ _ _ H). Qed.

Lemma group1_cap : forall t m st a b,
  cap st = Some (a, b) -> m_group m = cap st -> group1 t m = string_of_list_ascii (sub t a b).
Proof. intros t m st a b Hc Hg. unfold group1. rewrite Hg, Hc. reflexivity. Qed.

Lemma firstn_firstn_length : forall (A : Type) k (l : list A),
  firstn (List.length (firstn k l)) l = firstn k l.
Proof.
  intros A k. induction k as [|k IH]; intros [|x l]; simpl; try reflexivity.
  f_equal. apply IH.
Qed.

Lemma length_of_list_ascii : forall s,
  List.length (list_ascii_of_string s) = String.length s.
Proof. induction s as [|c s IH]; simpl; congruence. Qed.

Lemma sub_literal_prefix : forall t j e s,
  sub t j e = list_ascii_of_string s -> sub t j (j + String.length s) = list_ascii_of_string s.
Proof.
  intros t j e s H. unfold sub in *.
  replace (j + String.length s - j) with (List.length (firstn (e - j) (skipn j t))).
  - rewrite firstn_firstn_length. exact H.
  - rewrite H, length_of_list_ascii. lia.
Qed.

Lemma match_literal_substring : forall t j s,
  sub t j (j + String.length s) = list_ascii_of_string s ->
  is_substring s (string_of_list_ascii t) = true.
Proof.
  intros t j s H. pose proof (sub_is_substring t j (j + String.length s)) as Hs.
  rewrite H, string_of_list_ascii_of_string in Hs. exact Hs.
Qed.

(** X1: a document without the text [## Part ] has no part and yields no
    question records. *)
Theorem no_part_heading_no_questions : forall fs content,
  is_substring "## Part " content = false -> extract_questions fs content = [].
Proof.
  intros fs content Hno. unfold extract_questions.
  destruct (part_blocks content) as [|[pt pc] rest] eqn:E; [reflexivity|]. exfalso.
  assert (Hin : In (pt, pc) (part_blocks content)) by (rewrite E; left; reflexivity).
  apply part_blocks_sound in Hin as (j & m & Hm & _).
  apply match_at_steps in Hm as [_ Hs]. apply part_re_match in Hs as (a & b & _ & Hsub & _).
  apply sub_literal_prefix in Hsub.
  apply match_literal_substring in Hsub.
  rewrite string_of_list_ascii_of_string, Hno in Hsub. discriminate Hsub.
Qed.

(** X2: the part of every extracted record is the title of a [## Part]
    heading: it starts with [Part ] and lies on one line. *)
Theorem extracted_part_is_part_heading : forall fs content r,
  In r (extract_questions fs content) ->
  starts_with "Part " (part r) = true /\ has_char nl_char (part r) = false.
Proof.
  intros fs content r H.
  apply in_extract_questions in H as (pt & pc & qt & qc & Hp & _ & ->). cbn [part extract_question].
  apply part_blocks_sound in Hp as (j & m & Hm & ->).
  apply match_at_steps in Hm as [Hg Hs]. apply part_re_match in Hs as (a & b & Hc & _ & H1 & H2).
  rewrite (group1_cap _ _ _ _ _ Hc eq_refl). auto.
Qed.

(** X3: the title of every extracted record is the text of a [###] heading
    that begins with one of the labels Question, Challenge, SQL Query,
    Database Schema Design or Scenario, and it lies on one line. *)
Theorem extracted_title_has_question_label : forall fs content r,
  In r (extract_questions fs content) ->
  existsb (fun label => starts_with label (question_title r)) question_labels = true /\
  has_char nl_char (question_title r) = false.
Proof.
  intros fs content r H.
  apply in_extract_questions in H as (pt & pc & qt & qc & _ & Hq & ->).
  cbn [question_title extract_question].
  apply question_blocks_sound in Hq as (j & m & Hm & ->).
  apply match_at_steps in Hm as [_ Hs].
  apply question_section_re_match in Hs as (a & b & Hc & _ & H1 & H2).
  rewrite (group1_cap _ _ _ _ _ Hc eq_refl). auto.
Qed.

(** X4: a part whose content has no [### ] heading gives no question
    records. *)
Theorem part_without_subheading_no_questions : forall fs part_title part_content,
  is_substring "### " part_content = false ->
  extract_questions_from_part fs part_title part_content = [].
Proof.
  intros fs pt pc Hno. unfold extract_questions_from_part.
  destruct (question_blocks pc) as [|[qt qc] rest] eqn:E; [reflexivity|]. exfalso.
  assert (Hin : In (qt, qc) (question_blocks pc)) by (rewrite E; left; reflexivity).
  apply question_blocks_sound in Hin as (j & m & Hm & _).
  apply match_at_steps in Hm as [_ Hs].
  apply question_section_re_match in Hs as (a & b & _ & Hsub & _).
  apply sub_literal_prefix, match_literal_substring in Hsub.
  rewrite string_of_list_ascii_of_string, Hno in Hsub. discriminate Hsub.
Qed.

(** Examples: a document whose question headings sit under no part; both
    parts of [interview_doc]; a part with a bold question label. *)
Lemma no_part_heading_no_questions_witness :
  is_substring "## Part " partless_doc = false /\
  extract_questions empty_fs partless_doc = [].
Proof.
  assert (H : is_substring "## Part " partless_doc = false) by (vm_compute; reflexivity).
  split; [exact H | exact (no_part_heading_no_questions empty_fs partless_doc H)].
Defined.

Lemma extracted_part_is_part_heading_witness :
  exists r, In r (extract_questions empty_fs interview_doc) /\
    starts_with "Part " (part r) = true /\ has_char nl_char (part r) = false.
Proof.
  assert (Hin : In (nth 1 (extract_questions empty_fs interview_doc)
                        (extract_question empty_fs "" "" ""))
                   (extract_questions empty_fs interview_doc))
    by (vm_compute; right; left; reflexivity).
  eexists; split; [exact Hin|].
  exact (extracted_part_is_part_heading empty_fs interview_doc _ Hin).
Defined.

Lemma extracted_title_has_question_label_witness :
  exists r, In r (extract_questions empty_fs interview_doc) /\
    existsb (fun label => starts_with label (question_title r)) question_labels = true /\
    has_char nl_char (question_title r) = false.
Proof.
  assert (Hin : In (nth 1 (extract_questions empty_fs interview_doc)
                        (extract_question empty_fs "" "" ""))
                   (extract_questions empty_fs interview_doc))
    by (vm_compute; right; left; reflexivity).
  eexists; split; [exact Hin|].
  exact (extracted_title_has_question_label empty_fs interview_doc _ Hin).
Defined.

Lemma part_without_subheading_no_questions_witness :
  is_substring "### " flat_part = false /\
  extract_questions_from_part empty_fs "Part 1" flat_part = [].
Proof.
  assert (H : is_substring "### " flat_part = false) by (vm_compute; reflexivity).
  split; [exact H | exact (part_without_subheading_no_questions empty_fs "Part 1" flat_part H)].
Defined.

Lemma re_search_steps : forall r s m,
  re_search r s = Some m ->
  steps (list_ascii_of_string s) r (MState (m_start m) None) (MState (m_end m) (m_group m)).
Proof.
  intros r s m H. unfold re_search in H. apply search_from_sound in H as (j & _ & Hm).
  apply match_at_steps in Hm as [<- Hs]. exact Hs.
Qed.

Lemma link_target_has_bracket_paren : forall s g,
  link_target s = Some g -> is_substring "](" s = true.
Proof.
  intros s g H. unfold link_target, search_group in H.
  destruct (re_search link_re s) as [m|] eqn:E; [|discriminate H].
  apply re_search_steps in E. unfold link_re in E. cbn [seqs] in E.
  apply steps_seq_inv in E as (s1 & _ & E).
  apply steps_seq_inv in E as (s2 & _ & E).
  apply steps_seq_inv in E as (s3 & H3 & _).
  apply steps_lit in H3 as [Hp Hs].
  rewrite Hp in Hs. apply match_literal_substring in Hs.
  rewrite string_of_list_ascii_of_string in Hs. exact Hs.
Qed.

(** X5: a citation that holds no [](] is not a link: the resolver returns
    it unchanged, whatever the filesystem holds. *)
Theorem plain_citation_returned_verbatim : forall fs reference_text,
  is_substring "](" reference_text = false ->
  reference_text <> "N/A" -> reference_text <> "" ->
  fetch_reference_content fs reference_text = reference_text.
Proof.
  intros fs ref Hno Hna Hne. unfold fetch_reference_content.
  apply String.eqb_neq in Hna, Hne. rewrite Hna, Hne. simpl.
  unfold fetch_reference_body.
  destruct (link_target ref) as [g|] eqn:E; [|reflexivity].
  apply link_target_has_bracket_paren in E. rewrite E in Hno. discriminate Hno.
Qed.

(** X6: when the existence test or the read of the linked file raises, the
    resolver returns the error text behind the prefix
    [Error fetching reference: ]. *)
Theorem filesystem_error_reported : forall fs reference_text target msg,
  link_target reference_text = Some target ->
  (fs_exists fs (normalize_path target) = Raise msg \/
   (fs_exists fs (normalize_path target) = Ok true /\
    fs_read fs (normalize_path target) = Raise msg)) ->
  fetch_reference_content fs reference_text = "Error fetching reference: " ++ msg.
Proof.
  intros fs ref target msg Hl Hfs. unfold fetch_reference_content.
  assert (Hs := link_target_has_bracket_paren _ _ Hl).
  assert (Hna : String.eqb ref "N/A" = false)
    by (apply String.eqb_neq; intros ->; discriminate Hs).
  assert (Hne : String.eqb ref "" = false)
    by (apply String.eqb_neq; intros ->; discriminate Hs).
  rewrite Hna, Hne. simpl. unfold fetch_reference_body. rewrite Hl.
  destruct Hfs as [He | [He Hr]]; rewrite He; [reflexivity|]. rewrite Hr. reflexivity.
Qed.

Lemma string_append_empty : forall s, s ++ "" = s.
Proof. induction s as [|c s IH]; simpl; congruence. Qed.

Lemma starts_with_split : forall pre s,
  starts_with pre s = true -> exists rest, s = pre ++ rest.
Proof.
  induction pre as [|a pre IH]; intros s H; [exists s; reflexivity|].
  destruct s as [|b s]; [discriminate H|]. cbn [starts_with] in H.
  apply andb_prop in H as [Hab H]. apply Ascii.eqb_eq in Hab. subst b.
  apply IH in H as (rest & ->). exists rest. reflexivity.
Qed.

Lemma split_char_head : forall c s,
  exists rest, s = nth_str (split_char c s) 0 ++ rest /\
    has_char c (nth_str (split_char c s) 0) = false /\
    (rest = "" \/ exists r', rest = String c r').
Proof.
  intros c s. induction s as [|d s IH].
  - exists "". simpl. auto.
  - cbn [split_char]. destruct (Ascii.eqb c d) eqn:Ecd.
    + apply Ascii.eqb_eq in Ecd. subst d. exists (String c s). simpl. eauto.
    + destruct IH as (rest & Hs & Hh & Hr). exists rest.
      destruct (split_char c s) as [|w ws] eqn:E; unfold nth_str in *; simpl in *.
      * subst s. simpl. rewrite Ecd. auto.
      * rewrite Hs at 1. rewrite Ecd, Hh. auto.
Qed.

(** X7: the path the resolver looks up is the link target with one leading
    [../] removed (when there is one) and cut before its first [#]; it
    never contains [#]. *)
Theorem normalize_path_shape : forall target,
  exists pre rest,
    target = pre ++ normalize_path target ++ rest /\
    (pre = "../" /\ starts_with "../" target = true \/
     pre = "" /\ starts_with "../" target = false) /\
    has_char "#" (normalize_path target) = false /\
    (rest = "" \/ exists r', rest = String "#" r').
Proof.
  intros target. unfold normalize_path.
  remember (if starts_with "../" target then drop 3 target else target) as p eqn:Ep.
  assert (Hpre : exists pre, target = pre ++ p /\
            (pre = "../" /\ starts_with "../" target = true \/
             pre = "" /\ starts_with "../" target = false)).
  { destruct (starts_with "../" target) eqn:Es.
    - exists "../". split; [|auto]. subst p.
      apply starts_with_split in Es as (t & ->). reflexivity.
    - exists "". subst p. auto. }
  destruct Hpre as (pre & Ht & Hcase).
  destruct (has_char "#" p) eqn:Eh.
  - destruct (split_char_head "#" p) as (rest & Hs & Hh & Hr).
    exists pre, rest. repeat split; auto. rewrite Ht, Hs at 1. reflexivity.
  - exists pre, "". rewrite string_append_empty. auto.
Qed.

(** Examples: a citation in words only; a linked citation on a filesystem
    that refuses access. *)
Lemma plain_citation_returned_verbatim_witness :
  fetch_reference_content denied_fs "See the Go tour" = "See the Go tour".
Proof.
  apply plain_citation_returned_verbatim;
    [vm_compute; reflexivity | discriminate | discriminate].
Defined.

Lemma filesystem_error_reported_witness :
  link_target tour_citation = Some "../golang/tour.md#1-basics" /\
  fetch_reference_content denied_fs tour_citation =
    "Error fetching reference: [Errno 13] Permission denied".
Proof.
  assert (Hl : link_target tour_citation = Some "../golang/tour.md#1-basics")
    by (vm_compute; reflexivity).
  split; [exact Hl|].
  apply (filesystem_error_reported denied_fs tour_citation _ _ Hl). left. reflexivity.
Defined.
(** The lines that [r'^##[^#]'] matches. *)
Lemma level2_line_shape : forall l,
  re_match level2_line_re l <> None <-> exists c r, l = "##" ++ String c r /\ c <> "#"%char.
Proof.
  intros l. destruct l as [|a [|b [|c r]]]; unfold re_match, match_at; simpl.
  1-3: split; [intro H; exfalso; apply H;
               repeat match goal with |- context [if ?x then _ else _] => destruct x end;
               reflexivity
              | intros (c' & r' & H & _); discriminate H].
  destruct (a =? "#")%char eqn:Ea;
    [|split; [intro H; exfalso; apply H; reflexivity
             | intros (c' & r' & H & _); injection H as -> _ _; discriminate Ea]].
  destruct (b =? "#")%char eqn:Eb;
    [|split; [intro H; exfalso; apply H; reflexivity
             | intros (c' & r' & H & _); injection H as _ -> _; discriminate Eb]].
  apply Ascii.eqb_eq in Ea, Eb. subst a b. unfold not_c.
  destruct (c =? "#")%char eqn:Ec; simpl.
  - apply Ascii.eqb_eq in Ec. subst c. split; [intro H; exfalso; apply H; reflexivity|].
    intros (c' & r' & H & Hc). injection H as Hc0 _. subst c'. exfalso; exact (Hc eq_refl).
  - split; [|discriminate]. intros _. exists c, r. split; [reflexivity|].
    intros ->. discriminate Ec.
Qed.

(** X8: the lines kept after a section heading are the longest run of lines
    none of which is a numbered heading ([r'^#+\s*\d+']) or starts with
    [##] and a character other than [#]; the line that ends the run, if
    any, is of one of these two kinds. *)
Theorem take_section_stops_at_first_boundary : forall lines,
  exists rest, lines = (take_section lines ++ rest)%list /\
    Forall (fun l => re_match numbered_line_re l = None /\
                     ~ (exists c r, l = "##" ++ String c r /\ c <> "#"%char))
           (take_section lines) /\
    (rest = [] \/ exists l r, rest = l :: r /\
       (re_match numbered_line_re l <> None \/
        exists c r', l = "##" ++ String c r' /\ c <> "#"%char)).
Proof.
  induction lines as [|l ls IH].
  - exists []. simpl. auto.
  - cbn [take_section]. destruct (re_match numbered_line_re l) as [m|] eqn:En.
    + exists (l :: ls). split; [reflexivity|]. split; [constructor|].
      right. exists l, ls. split; [reflexivity|]. left. rewrite En. discriminate.
    + destruct (re_match level2_line_re l) as [m|] eqn:E2.
      * exists (l :: ls). split; [reflexivity|]. split; [constructor|].
        right. exists l, ls. split; [reflexivity|]. right.
        apply level2_line_shape. rewrite E2. discriminate.
      * destruct IH as (rest & Hl & Hf & Hr). exists rest.
        split; [simpl; f_equal; exact Hl|]. split; [|exact Hr].
        constructor; [|exact Hf]. split; [exact En|].
        rewrite <- level2_line_shape, E2. tauto.
Qed.

Lemma first_headings_firstn : forall k lines, k <= 5 ->
  first_headings k lines =
  firstn (5 - k) (filter (fun line => if re_match heading_line_re line then true else false)
                         lines).
Proof.
  intros k lines. revert k. induction lines as [|l ls IH]; intros k Hk.
  - destruct (5 - k); reflexivity.
  - cbn [first_headings filter]. destruct (re_match heading_line_re l) as [m|].
    + destruct (k <? 5) eqn:Ek.
      * apply Nat.ltb_lt in Ek. replace (5 - k) with (S (5 - S k)) by lia.
        simpl. f_equal. apply IH. lia.
      * apply Nat.ltb_ge in Ek. replace (5 - k) with 0 by lia. rewrite IH by lia.
        replace (5 - k) with 0 by lia. reflexivity.
    + apply IH. exact Hk.
Qed.

(** X9: the headings a file summary lists are the first five lines of the
    file that match [r'^#+\s+'], in file order. *)
Theorem file_summary_first_five_headings : forall content,
  first_headings 0 (split_char nl_char content) =
  firstn 5 (filter (fun line => if re_match heading_line_re line then true else false)
                   (split_char nl_char content)).
Proof. intros content. apply first_headings_firstn. lia. Qed.

Lemma first_some_seq_min : forall (B : Type) (f : nat -> option B) len lo x,
  first_some f (seq lo len) = Some x ->
  exists n, lo <= n /\ f n = Some x /\ forall n', lo <= n' < n -> f n' = None.
Proof.
  intros B f len. induction len as [|len IH]; intros lo x H; [discriminate H|].
  cbn [seq first_some] in H. destruct (f lo) as [y|] eqn:E.
  - injection H as <-. exists lo. split; [lia|]. split; [exact E|]. intros n' Hn'. lia.
  - apply IH in H as (n & Hle & Hn & Hmin). exists n. split; [lia|]. split; [exact Hn|].
    intros n' Hn'. destruct (Nat.eq_dec n' lo) as [->|Hne]; [exact E|]. apply Hmin. lia.
Qed.

(** A lazy star hands its continuation the shortest run that succeeds. *)
Lemma mat_star_lazy_min : forall t p st k x,
  mat t (star_lazy p) st k = Some x ->
  exists n, k (MState (pos st + n) (cap st)) = Some x /\
    forall n', n' < n -> k (MState (pos st + n') (cap st)) = None.
Proof.
  intros t p st k x H. unfold star_lazy in H. cbn [mat] in H. unfold rep_counts in H.
  cbn beta iota in H. apply first_some_seq_min in H as (n & _ & Hn & Hmin).
  exists n. split; [exact Hn|]. intros n' Hn'. apply Hmin. lia.
Qed.

Lemma mat_seq_peel : forall t r1 r2 st k x,
  mat t (Seq r1 r2) st k = Some x ->
  exists st', steps t r1 st st' /\ mat t r2 st' k = Some x.
Proof. intros t r1 r2 st k x H. exact (mat_sound t r1 st _ x H). Qed.

Lemma alt_section_stop_at_heading : forall t q c,
  (q = 0 \/ nth_error t (pred q) = Some nl_char) ->
  nth_error t q = Some "#"%char -> nth_error t (S q) = Some "#"%char ->
  mat t alt_section_stop (MState q c) Some <> None.
Proof.
  intros t q c Hb H1 H2. unfold alt_section_stop. cbn [alts lit ch mat pos cap].
  assert (Hb' : (q =? 0) || is_nl_at t (pred q) = true).
  { destruct Hb as [->|Hn]; [reflexivity|]. unfold is_nl_at. rewrite Hn, orb_true_r.
    reflexivity. }
  rewrite Hb', H1, H2. cbn. discriminate.
Qed.

Lemma alt_section_group : forall t j m,
  match_at t alt_section_re j = Some m ->
  exists a b, m_group m = Some (a, b) /\ 0 < a /\ nth_error t (pred a) = Some nl_char /\
    forall q, a <= q < b -> (q = 0 \/ nth_error t (pred q) = Some nl_char) ->
      nth_error t q = Some "#"%char -> nth_error t (S q) = Some "#"%char -> False.
Proof.
  intros t j m H. unfold match_at in H.
  destruct (mat t alt_section_re (MState j None) Some) as [s|] eqn:E; [|discriminate H].
  injection H as <-. cbn [m_group]. unfold alt_section_re in E. cbn [seqs] in E.
  apply mat_seq_peel in E as (s1 & _ & E).
  apply mat_seq_peel in E as (s2 & _ & E).
  apply mat_seq_peel in E as (s3 & _ & E).
  apply mat_seq_peel in E as (s4 & _ & E).
  apply mat_seq_peel in E as (s5 & H5 & E).
  apply steps_chr_inv in H5 as (c & Hc & Hnl & ->).
  set (a := S (pos s4)) in E.
  change (mat t (star_lazy (dot true)) (MState a (cap s4))
            (fun st' => mat t (Ahead alt_section_stop)
                          (MState (pos st') (Some (a, pos st'))) Some) = Some s) in E.
  apply mat_star_lazy_min in E as (n & Hn & Hmin). cbn [pos cap] in Hn, Hmin.
  cbn [mat] in Hn. destruct (mat t alt_section_stop _ Some) as [y|]; [|discriminate Hn].
  injection Hn as <-. exists a, (a + n). cbn [cap]. split; [reflexivity|].
  split; [unfold a; lia|]. split.
  { unfold a. simpl. rewrite Hc. unfold is_c in Hnl. apply Ascii.eqb_eq in Hnl.
    rewrite Hnl. reflexivity. }
  intros q Hq Hb H1 H2.
  specialize (Hmin (q - a) ltac:(lia)). cbn [mat] in Hmin.
  replace (a + (q - a)) with q in Hmin by lia.
  destruct (mat t alt_section_stop (MState q (Some (a, q))) Some) eqn:Es; [discriminate Hmin|].
  exact (alt_section_stop_at_heading t q _ Hb H1 H2 Es).
Qed.

Lemma list_ascii_append : forall s1 s2,
  list_ascii_of_string (s1 ++ s2) = (list_ascii_of_string s1 ++ list_ascii_of_string s2)%list.
Proof. induction s1 as [|c s1 IH]; intros s2; simpl; [reflexivity|]. f_equal. apply IH. Qed.

Lemma starts_with_nth : forall p s i c,
  starts_with p s = true -> nth_error (list_ascii_of_string p) i = Some c ->
  nth_error (list_ascii_of_string s) i = Some c.
Proof.
  intros p s i c Hs Hi. apply starts_with_split in Hs as (rest & ->).
  rewrite list_ascii_append. rewrite nth_error_app1; [exact Hi|].
  apply nth_error_Some. rewrite Hi. discriminate.
Qed.

Lemma is_substring_nth : forall p s,
  is_substring p s = true -> exists o, forall i c,
    nth_error (list_ascii_of_string p) i = Some c ->
    nth_error (list_ascii_of_string s) (o + i) = Some c.
Proof.
  intros p s. induction s as [|d s IH]; intros H; cbn [is_substring] in H.
  - rewrite orb_false_r in H. exists 0. intros i c Hi. exact (starts_with_nth _ _ _ _ H Hi).
  - apply orb_prop in H as [H|H].
    + exists 0. intros i c Hi. exact (starts_with_nth _ _ _ _ H Hi).
    + apply IH in H as (o & Ho). exists (S o). intros i c Hi. apply Ho. exact Hi.
Qed.

Lemma nth_error_sub : forall t a b i c,
  nth_error (sub t a b) i = Some c -> i < b - a /\ nth_error t (a + i) = Some c.
Proof.
  intros t a b i c H. unfold sub in H. rewrite nth_error_firstn in H.
  destruct (i <? b - a) eqn:E; [|discriminate H]. apply Nat.ltb_lt in E.
  rewrite nth_error_skipn in H. auto.
Qed.

Lemma alt_section_no_heading_line : forall content section,
  In section (re_findall alt_section_re content) ->
  starts_with "##" section = false /\ is_substring (String nl_char "##") section = false.
Proof.
  intros content section H. unfold re_findall in H.
  apply findall_sound in H as (j & m & Hm & ->).
  apply alt_section_group in Hm as (a & b & Hg & Ha & Hnl & Hstop).
  unfold group1. rewrite Hg. unfold slice. change (firstn (b - a) (skipn a _))
    with (sub (list_ascii_of_string content) a b).
  set (t := list_ascii_of_string content) in *.
  assert (Hl : forall i c, nth_error (list_ascii_of_string (string_of_list_ascii (sub t a b))) i
                          = Some c -> i < b - a /\ nth_error t (a + i) = Some c).
  { intros i c. rewrite list_ascii_of_string_of_list_ascii. apply nth_error_sub. }
  split.
  - destruct (starts_with "##" _) eqn:Es; [exfalso|reflexivity].
    assert (H0 := Hl 0 "#"%char (starts_with_nth _ _ 0 _ Es eq_refl)).
    assert (H1 := Hl 1 "#"%char (starts_with_nth _ _ 1 _ Es eq_refl)).
    rewrite Nat.add_0_r in H0. rewrite Nat.add_1_r in H1.
    apply (Hstop a); [lia | right; exact Hnl | apply H0 | apply H1].
  - destruct (is_substring _ _) eqn:Es; [exfalso|reflexivity].
    apply is_substring_nth in Es as (o & Ho).
    assert (H0 := Hl _ _ (Ho 0 nl_char eq_refl)).
    assert (H1 := Hl _ _ (Ho 1 "#"%char eq_refl)).
    assert (H2 := Hl _ _ (Ho 2 "#"%char eq_refl)).
    apply (Hstop (a + (o + 1))); [lia| |apply H1|].
    + right. replace (pred (a + (o + 1))) with (a + (o + 0)) by lia. apply H0.
    + replace (S (a + (o + 1))) with (a + (o + 2)) by lia. apply H2.
Qed.

(** X10: a section that [extract_alternatives] finds never has [##] at
    the start of one of its lines: the lazy group stops at the first line
    that begins with [##], [####] included. *)
Theorem alternative_section_has_no_heading_line : forall content section,
  In section (re_findall alt_section_re content) ->
  starts_with "##" section = false /\ is_substring (String nl_char "##") section = false.
Proof. exact alt_section_no_heading_line. Qed.

Lemma starts_with_app_prefix : forall p q s,
  starts_with (p ++ q) s = true -> starts_with p s = true.
Proof.
  induction p as [|a p IH]; intros q s H; [reflexivity|].
  destruct s as [|b s]; [discriminate H|]. cbn [starts_with append] in *.
  apply andb_prop in H as [Hab H]. rewrite Hab. simpl. exact (IH q s H).
Qed.

Lemma is_substring_app_prefix : forall p q s,
  is_substring (p ++ q) s = true -> is_substring p s = true.
Proof.
  intros p q s. induction s as [|d s IH]; intros H; cbn [is_substring] in *.
  - rewrite orb_false_r in *. exact (starts_with_app_prefix _ _ _ H).
  - apply orb_prop in H as [H|H].
    + rewrite (starts_with_app_prefix _ _ _ H). reflexivity.
    + rewrite (IH H). apply orb_true_r.
Qed.

Lemma alt_question_found : forall section alt_content,
  In alt_content (re_findall alt_question_re section) ->
  is_substring "#### Alternative" section = true.
Proof.
  intros section g H. unfold re_findall in H.
  apply findall_sound in H as (j & m & Hm & _).
  apply match_at_steps in Hm as [_ Hs]. unfold alt_question_re in Hs. cbn [seqs] in Hs.
  apply steps_seq_inv in Hs as (s1 & H1 & _). apply steps_lit in H1 as [Hp Hsub].
  cbn [pos] in Hp, Hsub. rewrite Hp in Hsub.
  apply match_literal_substring in Hsub.
  rewrite string_of_list_ascii_of_string in Hsub. exact Hsub.
Qed.

(** X11: every alternative record comes from a section in which the text
    [#### Alternative] occurs, but neither at the start of the section nor
    right after a newline: an alternative written as a [####] heading line
    is never extracted. *)
Theorem alternative_record_needs_inline_marker : forall content a,
  In a (extract_alternatives content) ->
  exists section, In section (re_findall alt_section_re content) /\
    is_substring "#### Alternative" section = true /\
    starts_with "#### Alternative" section = false /\
    is_substring (String nl_char "#### Alternative") section = false.
Proof.
  intros content a H. unfold extract_alternatives in H.
  apply in_flat_map in H as (section & Hs & H). apply in_map_iff in H as (g & _ & Hg).
  exists section. split; [exact Hs|]. split; [exact (alt_question_found _ _ Hg)|].
  destruct (alt_section_no_heading_line _ _ Hs) as [H1 H2]. split.
  - destruct (starts_with "#### Alternative" section) eqn:E; [|reflexivity].
    rewrite <- H1. symmetry. exact (starts_with_app_prefix "##" "## Alternative" _ E).
  - destruct (is_substring (String nl_char "#### Alternative") section) eqn:E;
      [|reflexivity].
    rewrite <- H2. symmetry. exact (is_substring_app_prefix (String nl_char "##") "## Alternative" _ E).
Qed.

(** Examples: with a [####] heading line the section found is empty and no
    alternative is extracted; with the marker inside a line one is. *)
Lemma alternative_section_has_no_heading_line_witness :
  In "" (re_findall alt_section_re alt_doc) /\ extract_alternatives alt_doc = [] /\
  starts_with "##" "" = false /\ is_substring (String nl_char "##") "" = false.
Proof.
  assert (Hin : In "" (re_findall alt_section_re alt_doc)) by (vm_compute; left; reflexivity).
  split; [exact Hin|]. split; [vm_compute; reflexivity|].
  exact (alternative_section_has_no_heading_line alt_doc "" Hin).
Defined.

Lemma alternative_record_needs_inline_marker_witness :
  exists a section,
    In a (extract_alternatives inline_alt_doc) /\
    In section (re_findall alt_section_re inline_alt_doc) /\
    is_substring "#### Alternative" section = true /\
    starts_with "#### Alternative" section = false /\
    is_substring (String nl_char "#### Alternative") section = false.
Proof.
  assert (Hin : In (MkAlternativeRecord "How do maps grow?" "Buckets double.")
                   (extract_alternatives inline_alt_doc)) by (vm_compute; left; reflexivity).
  destruct (alternative_record_needs_inline_marker inline_alt_doc _ Hin) as (section & H).
  exists (MkAlternativeRecord "How do maps grow?" "Buckets double."), section.
  split; [exact Hin | exact H].
Defined.

Lemma run_length_le : forall p l, run_length p l <= List.length l.
Proof.
  intros p l. induction l as [|c l IH]; simpl; [lia|]. destruct (p c); simpl; lia.
Qed.

Lemma steps_rep_length : forall t g lo hi p st st',
  steps t (Rep g lo hi p) st st' ->
  lo <= List.length (sub t (pos st) (pos st')).
Proof.
  intros t g lo hi p st st' H. inversion H as [| | g0 lo0 hi0 p0 st0 n Hlo Hn Hhi | | | | | | | | | |];
    subst. cbn [pos]. unfold sub. rewrite length_firstn.
  pose proof (run_length_le p (skipn (pos st) t)). lia.
Qed.

(** What [Group (plus (dot false))] captures: at least one character, none
    of them a newline. *)
Lemma steps_line_group : forall t st st',
  steps t (Group (plus (dot false))) st st' ->
  exists a b, cap st' = Some (a, b) /\ sub t a b <> [] /\
              Forall (fun c => c <> nl_char) (sub t a b).
Proof.
  intros t st st' H. apply steps_group_inv in H as (s & Hs & ->). exists (pos st), (pos s).
  split; [reflexivity|]. split.
  - intros E. apply steps_rep_length in Hs. rewrite E in Hs. simpl in Hs. lia.
  - apply (steps_classes (fun c => c <> nl_char)) in Hs; [exact Hs|]. no_newline_classes.
Qed.

Lemma line_group_string : forall t m a b,
  m_group m = Some (a, b) -> sub t a b <> [] ->
  Forall (fun c => c <> nl_char) (sub t a b) ->
  group1 t m <> "" /\ has_char nl_char (group1 t m) = false.
Proof.
  intros t m a b Hg Hne Hf. unfold group1. rewrite Hg. unfold slice. fold (sub t a b).
  split; [|exact (has_char_forall _ _ Hf)].
  destruct (sub t a b) as [|c l]; [contradiction|]. discriminate.
Qed.

Lemma meta_field_single_line : forall label content,
  default_na (search_group (meta_re label) content) <> "" /\
  has_char nl_char (default_na (search_group (meta_re label) content)) = false.
Proof.
  intros label content. unfold search_group.
  destruct (re_search (meta_re label) content) as [m|] eqn:E; cbn [option_map default_na];
    [|split; [discriminate | reflexivity]].
  apply re_search_steps in E. unfold meta_re in E. cbn [seqs] in E.
  apply steps_seq_inv in E as (s1 & _ & E). apply steps_seq_inv in E as (s2 & _ & E).
  apply steps_line_group in E as (a & b & Hc & Hne & Hf).
  exact (line_group_string _ m a b Hc Hne Hf).
Qed.

Lemma title_single_line : forall content g,
  search_group title_re content = Some g -> g <> "" /\ has_char nl_char g = false.
Proof.
  intros content g H. unfold search_group in H.
  destruct (re_search title_re content) as [m|] eqn:E; [|discriminate H].
  injection H as <-. apply re_search_steps in E. unfold title_re in E. cbn [seqs] in E.
  apply steps_seq_inv in E as (s1 & _ & E). apply steps_seq_inv in E as (s2 & _ & E).
  apply steps_seq_inv in E as (s3 & E & H4). apply steps_eolm_inv in H4.
  apply steps_line_group in E as (a & b & Hc & Hne & Hf). rewrite <- H4 in Hc.
  exact (line_group_string _ m a b Hc Hne Hf).
Qed.

(** X12: in a parsed file the duration, format and target level are each a
    non-empty single line ("N/A" when the label is missing), and the title
    is a non-empty single line unless it is the file name's stem. *)
Theorem parsed_metadata_single_line : forall fs file_path file_name d,
  parse_markdown_file fs file_path file_name = Ok d ->
  Forall (fun v => v <> "" /\ has_char nl_char v = false)
         [duration d; format_info d; target_level d] /\
  ((title d <> "" /\ has_char nl_char (title d) = false) \/ title d = path_stem file_name).
Proof.
  intros fs path name d H. unfold parse_markdown_file in H.
  destruct (fs_read fs path) as [content|e]; [|discriminate H].
  injection H as <-. cbn [duration format_info target_level title].
  split; [repeat constructor; apply meta_field_single_line|].
  destruct (search_group title_re content) as [g|] eqn:E; [left | right; reflexivity].
  exact (title_single_line _ _ E).
Qed.

(** Example: the junior file holding [interview_doc]. *)
Lemma parsed_metadata_single_line_witness :
  exists d, parse_markdown_file
              (single_file_fs "interviews/junior-go-developer.md" interview_doc)
              "interviews/junior-go-developer.md" "junior-go-developer.md" = Ok d /\
    Forall (fun v => v <> "" /\ has_char nl_char v = false)
           [duration d; format_info d; target_level d] /\
    ((title d <> "" /\ has_char nl_char (title d) = false) \/
     title d = path_stem "junior-go-developer.md").
Proof.
  destruct (parse_markdown_file
              (single_file_fs "interviews/junior-go-developer.md" interview_doc)
              "interviews/junior-go-developer.md" "junior-go-developer.md")
    as [d|e] eqn:E.
  - exists d. split; [reflexivity|]. exact (parsed_metadata_single_line _ _ _ _ E).
  - exfalso. vm_compute in E. discriminate E.
Defined.

Ltac split_export H :=
  repeat (match type of H with
          | context [fs_exists ?fs ?p] => destruct (fs_exists fs p) as [[|]|] eqn:?
          end
          || match type of H with
          | context [parse_markdown_file ?fs ?p ?n] =>
              destruct (parse_markdown_file fs p n) as [?d|?e] eqn:?
          end);
  cbn in H; try discriminate H;
  repeat (match type of H with
          | context [questions ?d] => destruct (questions d)
          end
          || match type of H with
          | context [alternatives ?d] => destruct (alternatives d)
          end);
  cbn in H.

(** X13: when the export succeeds, at least one level file exists, the
    last sheet is the Summary sheet, with one row per level found, in the
    order Junior, Intermediate, Senior, and each sheet before it is a
    [<level>_Questions] or [<level>_Alternatives] sheet of a level found. *)
Theorem export_summary_sheet_last : forall fs dir output sheets log,
  export_to_excel fs dir output = Ok (sheets, log) ->
  present_levels fs dir <> [] /\
  exists front rows, sheets = (front ++ [Sheet "Summary" summary_header rows])%list /\
    Forall (fun s => exists level, In level (present_levels fs dir) /\
              (sheet_name s = level ++ "_Questions" \/ sheet_name s = level ++ "_Alternatives"))
           front /\
    map (hd (CStr "")) rows = map CStr (present_levels fs dir).
Proof.
  intros fs dir output sheets log H.
  unfold export_to_excel, export_levels, export_level, interview_files in H.
  unfold present_levels, interview_files.
  split_export H.
  all: injection H as <- <-; cbn;
    repeat match goal with E : fs_exists _ _ = _ |- _ => rewrite E; clear E end; cbn.
  all: split; [discriminate|].
  all: match goal with |- exists front rows, ?L = _ /\ _ => exists (removelast L) end;
    eexists; split; [cbn; reflexivity|]; cbn;
    (split; [|reflexivity]);
    repeat (apply Forall_cons;
            [first [ exists "Junior"; split; solve [simpl; auto]
                   | exists "Intermediate"; split; solve [simpl; auto]
                   | exists "Senior"; split; solve [simpl; auto] ] |]);
    apply Forall_nil.
Qed.

(** X14: when the export succeeds it prints, for Junior, Intermediate and
    Senior in turn, either that it processes the level's file or that the
    file is missing and the level skipped, and then the success line. *)
Theorem export_log_lines : forall fs dir output sheets log,
  export_to_excel fs dir output = Ok (sheets, log) ->
  log = app (map (level_log_line fs dir) interview_files)
            ["Excel file exported successfully: " ++ output].
Proof.
  intros fs dir output sheets log H.
  unfold export_to_excel, export_levels, export_level, interview_files in H.
  unfold interview_files. cbn [map level_log_line].
  split_export H.
  all: injection H as <- <-; reflexivity.
Qed.

Lemma to_uint_nonnil : forall n, Nat.to_uint n <> Decimal.Nil.
Proof.
  intros n E. pose proof (DecimalNat.Unsigned.to_of (Nat.to_uint n)) as H.
  rewrite DecimalNat.Unsigned.of_to in H. rewrite E in H.
  exact (DecimalFacts.unorm_nonnil Decimal.Nil (eq_sym H)).
Qed.

Lemma truthy_length_pos : forall c, cell_truthy c = true -> 0 < cell_length c.
Proof.
  intros [s|n] H; cbn [cell_truthy cell_length] in *.
  - destruct s; [discriminate H | simpl; lia].
  - destruct (Nat.to_uint n) eqn:E; [exfalso; exact (to_uint_nonnil n E)| ..];
      simpl; lia.
Qed.

Lemma max_cell_length_fold : forall column m,
  (forall c, In c column -> cell_truthy c = true -> cell_length c <= fold_left
     (fun max_length c =>
        if cell_truthy c then
          if max_length <? cell_length c then cell_length c else max_length
        else max_length) column m) /\
  m <= fold_left
     (fun max_length c =>
        if cell_truthy c then
          if max_length <? cell_length c then cell_length c else max_length
        else max_length) column m /\
  (fold_left
     (fun max_length c =>
        if cell_truthy c then
          if max_length <? cell_length c then cell_length c else max_length
        else max_length) column m = m \/
   exists c, In c column /\ cell_truthy c = true /\ fold_left
     (fun max_length c =>
        if cell_truthy c then
          if max_length <? cell_length c then cell_length c else max_length
        else max_length) column m = cell_length c).
Proof.
  induction column as [|c0 column IH]; intros m; cbn [fold_left].
  - split; [intros c []|]. split; [lia | left; reflexivity].
  - set (m' := if cell_truthy c0 then if m <? cell_length c0 then cell_length c0 else m else m).
    destruct (IH m') as (Hall & Hge & Hwit).
    assert (Hm : m <= m' /\ (cell_truthy c0 = true -> cell_length c0 <= m') /\
                 (m' = m \/ (cell_truthy c0 = true /\ m' = cell_length c0))).
    { unfold m'. destruct (cell_truthy c0); [|split; [lia | split; [discriminate | auto]]].
      destruct (m <? cell_length c0) eqn:E;
        [apply Nat.ltb_lt in E | apply Nat.ltb_ge in E]; split; try lia; split; auto. }
    destruct Hm as (Hmm & Hc0 & Hm'). split; [|split].
    + intros c [<-|Hin] Ht; [specialize (Hc0 Ht); lia | exact (Hall c Hin Ht)].
    + lia.
    + destruct Hwit as [Heq|(c & Hin & Ht & Hl)].
      * rewrite Heq. destruct Hm' as [Hm'|[Ht Hm']]; [left; exact Hm'|].
        right. exists c0. split; [left; reflexivity | split; [exact Ht | exact Hm']].
      * right. exists c. split; [right; exact Hin | split; [exact Ht | exact Hl]].
Qed.

(** X15: the length [format_worksheet] measures for a column is the length
    of its longest non-empty cell, 0 when it has none. *)
Theorem max_cell_length_is_longest : forall column,
  (forall c, In c column -> cell_truthy c = true -> cell_length c <= max_cell_length column) /\
  ((max_cell_length column = 0 /\ Forall (fun c => cell_truthy c = false) column) \/
   exists c, In c column /\ cell_truthy c = true /\ max_cell_length column = cell_length c).
Proof.
  intros column. destruct (max_cell_length_fold column 0) as (Hall & _ & Hw).
  split; [exact Hall|]. unfold max_cell_length. destruct Hw as [H0|Hw]; [|right; exact Hw].
  left. split; [exact H0|]. apply Forall_forall. intros c Hin.
  destruct (cell_truthy c) eqn:Ht; [|reflexivity].
  specialize (Hall c Hin Ht). apply truthy_length_pos in Ht. lia.
Qed.

(** X16: a column gets a width exactly when one of its cells is non-empty,
    and the width is 80, 60 or between 6 and 40. *)
Theorem column_width_range : forall column,
  (column_width column = None <-> Forall (fun c => cell_truthy c = false) column) /\
  (forall w, column_width column = Some w -> w = 80 \/ w = 60 \/ 6 <= w <= 40).
Proof.
  intros column. destruct (max_cell_length_is_longest column) as (Hall & Hcase).
  unfold column_width. split.
  - destruct Hcase as [[H0 Hf]|(c & Hin & Ht & Hl)].
    + rewrite H0. split; [intros _; exact Hf | reflexivity].
    + pose proof (truthy_length_pos c Ht). assert (Hp : (0 <? max_cell_length column) = true)
        by (apply Nat.ltb_lt; lia).
      rewrite Hp. split; [discriminate|]. intros Hf.
      rewrite Forall_forall in Hf. rewrite (Hf c Hin) in Ht. discriminate Ht.
  - intros w Hw. destruct (0 <? max_cell_length column) eqn:Hp; [|discriminate Hw].
    injection Hw as <-. apply Nat.ltb_lt in Hp. unfold adjusted_width.
    destruct (300 <? max_cell_length column); [left; reflexivity|].
    destruct (100 <? max_cell_length column); [right; left; reflexivity|].
    right; right. lia.
Qed.

(** X17: a longer measured length never gives a narrower column. *)
Theorem adjusted_width_monotone : forall m1 m2,
  m1 <= m2 -> adjusted_width m1 <= adjusted_width m2.
Proof.
  intros m1 m2 H. unfold adjusted_width.
  destruct (300 <? m1) eqn:A1; destruct (300 <? m2) eqn:A2;
  destruct (100 <? m1) eqn:B1; destruct (100 <? m2) eqn:B2;
  repeat match goal with
         | E : (_ <? _) = true |- _ => apply Nat.ltb_lt in E
         | E : (_ <? _) = false |- _ => apply Nat.ltb_ge in E
         end; lia.
Qed.

(** Examples: an interviews directory holding only the junior file; two
    lengths on either side of the 100-character step. *)
Lemma export_summary_sheet_last_witness :
  exists sheets log,
    export_to_excel (single_file_fs "interviews/junior-go-developer.md" interview_doc)
      "interviews" "out.xlsx" = Ok (sheets, log) /\
    present_levels (single_file_fs "interviews/junior-go-developer.md" interview_doc)
      "interviews" <> [] /\
    exists front rows, sheets = (front ++ [Sheet "Summary" summary_header rows])%list /\
      Forall (fun s => exists level,
                In level (present_levels (single_file_fs "interviews/junior-go-developer.md"
                                            interview_doc) "interviews") /\
                (sheet_name s = level ++ "_Questions" \/
                 sheet_name s = level ++ "_Alternatives")) front /\
      map (hd (CStr "")) rows =
      map CStr (present_levels (single_file_fs "interviews/junior-go-developer.md"
                                  interview_doc) "interviews").
Proof.
  destruct (export_to_excel (single_file_fs "interviews/junior-go-developer.md" interview_doc)
              "interviews" "out.xlsx") as [[sheets log]|e] eqn:E.
  - exists sheets, log. split; [reflexivity|]. exact (export_summary_sheet_last _ _ _ _ _ E).
  - exfalso. vm_compute in E. discriminate E.
Defined.

Lemma export_log_lines_witness :
  exists sheets log,
    export_to_excel (single_file_fs "interviews/junior-go-developer.md" interview_doc)
      "interviews" "out.xlsx" = Ok (sheets, log) /\
    log = app (map (level_log_line (single_file_fs "interviews/junior-go-developer.md"
                                      interview_doc) "interviews") interview_files)
              ["Excel file exported successfully: " ++ "out.xlsx"].
Proof.
  destruct (export_to_excel (single_file_fs "interviews/junior-go-developer.md" interview_doc)
              "interviews" "out.xlsx") as [[sheets log]|e] eqn:E.
  - exists sheets, log. split; [reflexivity|]. exact (export_log_lines _ _ _ _ _ E).
  - exfalso. vm_compute in E. discriminate E.
Defined.

Lemma adjusted_width_monotone_witness :
  100 <= 101 /\ adjusted_width 100 <= adjusted_width 101.
Proof. split; [lia | apply adjusted_width_monotone; lia]. Defined.

(** X18: when none of the three level files exists, no sheet is written
    and saving the workbook raises. *)
Theorem export_without_files_raises : forall fs dir output,
  (forall level filename, In (level, filename) interview_files ->
     fs_exists fs (join_path dir filename) = Ok false) ->
  export_to_excel fs dir output = Raise "At least one sheet must be visible".
Proof.
  intros fs dir output H.
  assert (H1 := H _ _ (or_introl eq_refl)).
  assert (H2 := H _ _ (or_intror (or_introl eq_refl))).
  assert (H3 := H _ _ (or_intror (or_intror (or_introl eq_refl)))).
  unfold export_to_excel, export_levels, export_level, interview_files.
  rewrite H1, H2, H3. reflexivity.
Qed.

(** Example: an interviews directory with no level file. *)
Lemma export_without_files_raises_witness :
  (forall level filename, In (level, filename) interview_files ->
     fs_exists empty_fs (join_path "interviews" filename) = Ok false) /\
  export_to_excel empty_fs "interviews" "out.xlsx" = Raise "At least one sheet must be visible".
Proof.
  assert (H : forall level filename, In (level, filename) interview_files ->
                fs_exists empty_fs (join_path "interviews" filename) = Ok false)
    by (intros; reflexivity).
  split; [exact H | exact (export_without_files_raises empty_fs "interviews" "out.xlsx" H)].
Defined.
